(** * CopyQ clipboard monitor: a shallow embedding of [src/clipboardmonitor.cpp]

    The monitor process watches the system clipboard (and, on X11, the
    selection), relays new content to the server over a local socket and
    applies content and settings that the server sends back.

    The embedding threads one value of type [Sys] through every handler:
    the fields of the [ClipboardMonitor] object, the part of the host the
    handlers query or change (buffer contents, buffer ownership, the X11
    pointer state), and the chronological list of observable effects (log
    lines, buffer writes, messages written to the socket). *)

From Stdlib Require Import ZArith NArith Lia List Bool Ascii String.
From stdpp Require Import base gmap strings list pretty.

Local Open Scope string_scope.
Local Open Scope N_scope.

(** ** Data *)

(** [QClipboard::Mode]. *)
Inductive Mode : Type := Clipboard | Selection | FindBuffer.

#[global] Instance Mode_eq_dec : EqDecision Mode.
Proof. solve_decision. Defined.

Definition QByteArray : Type := string.

(** [QMimeData]: format names with their payloads, in enumeration order. *)
Definition QMimeData : Type := list (string * QByteArray).

(** [QMimeData::formats()]. *)
Definition formats (d : QMimeData) : list string := d.*1.

(** [QMimeData::data(mime)]: the payload stored for [mime], empty when the
    format is absent. *)
Fixpoint data (d : QMimeData) (mime : string) : QByteArray :=
  match d with
  | [] => ""
  | (f, bytes) :: d' => if decide (f = mime) then bytes else data d' mime
  end.

(** [QList::isEmpty()], [QByteArray::isEmpty()]. *)
Definition isEmpty {A} (l : list A) : bool :=
  match l with [] => true | _ => false end.

Definition bytes_isEmpty (b : QByteArray) : bool :=
  match b with EmptyString => true | _ => false end.

(** [QTimer], as far as the monitor uses it. *)
Record QTimer : Type := mkTimer {
  singleShot : bool;
  interval : N;
  isActive : bool
}.

(** [QTimer::start()]. *)
Definition start (t : QTimer) : QTimer :=
  {| singleShot := singleShot t; interval := interval t; isActive := true |}.

(** What the event loop does to a timer when it expires, before the slot
    connected to [timeout()] runs: a single-shot timer is stopped. *)
Definition expire (t : QTimer) : QTimer :=
  {| singleShot := singleShot t; interval := interval t;
     isActive := if singleShot t then false else isActive t |}.

(** [class PrivateX11]: [m_dsp] is kept as "the display handle is not
    NULL"; the object exists on every build and is used on X11 only. *)
Record PrivateX11 : Type := mkX11 {
  m_dsp : bool;
  m_timer : QTimer
}.

(** The socket object, as far as [QObject::blockSignals] is concerned. *)
Record QLocalSocket : Type := mkSocket {
  signalsBlocked : bool
}.

(** The fields of [class ClipboardMonitor]. *)
Record ClipboardMonitor : Type := mkMonitor {
  m_formats : list string;
  m_newdata : option QMimeData;
  m_checkclip : bool;
  m_copyclip : bool;
  m_checksel : bool;
  m_copysel : bool;
  m_lastHash : N;
  m_socket : QLocalSocket;
  m_updateTimer : QTimer;
  m_x11 : PrivateX11
}.

(** The host, as seen through [QClipboard] and Xlib: what each buffer
    holds ([None]: the data cannot be accessed), whether this process owns
    it, whether [XOpenDisplay] succeeds, and the button and modifier mask
    that [XQueryPointer] reports. *)
Record World : Type := mkWorld {
  clip_data : option QMimeData;
  sel_data : option QMimeData;
  clip_owned : bool;
  sel_owned : bool;
  x_display : bool;
  x_pointer : Z
}.

(** Observable effects, in the order they happen. *)
Inductive Effect : Type :=
| Log (msg : string)
| SetClipboardData (d : QMimeData) (mode : Mode)
| WriteMessage (item : QMimeData).

Record Sys : Type := mkSys {
  mon : ClipboardMonitor;
  host : World;
  trace : list Effect
}.

(** What the socket has buffered: a complete framed message carrying a
    clipboard item, or a frame that cannot be read to its end. *)
Inductive Frame : Type :=
| Complete (item : QMimeData)
| Truncated.

(** ** Field updates *)

Definition set_formats (v : list string) (m : ClipboardMonitor) :=
  mkMonitor v (m_newdata m) (m_checkclip m) (m_copyclip m) (m_checksel m)
            (m_copysel m) (m_lastHash m) (m_socket m) (m_updateTimer m) (m_x11 m).
Definition set_newdata (v : option QMimeData) (m : ClipboardMonitor) :=
  mkMonitor (m_formats m) v (m_checkclip m) (m_copyclip m) (m_checksel m)
            (m_copysel m) (m_lastHash m) (m_socket m) (m_updateTimer m) (m_x11 m).
Definition set_checkclip (v : bool) (m : ClipboardMonitor) :=
  mkMonitor (m_formats m) (m_newdata m) v (m_copyclip m) (m_checksel m)
            (m_copysel m) (m_lastHash m) (m_socket m) (m_updateTimer m) (m_x11 m).
Definition set_copyclip (v : bool) (m : ClipboardMonitor) :=
  mkMonitor (m_formats m) (m_newdata m) (m_checkclip m) v (m_checksel m)
            (m_copysel m) (m_lastHash m) (m_socket m) (m_updateTimer m) (m_x11 m).
Definition set_checksel (v : bool) (m : ClipboardMonitor) :=
  mkMonitor (m_formats m) (m_newdata m) (m_checkclip m) (m_copyclip m) v
            (m_copysel m) (m_lastHash m) (m_socket m) (m_updateTimer m) (m_x11 m).
Definition set_copysel (v : bool) (m : ClipboardMonitor) :=
  mkMonitor (m_formats m) (m_newdata m) (m_checkclip m) (m_copyclip m)
            (m_checksel m) v (m_lastHash m) (m_socket m) (m_updateTimer m) (m_x11 m).
Definition set_lastHash (v : N) (m : ClipboardMonitor) :=
  mkMonitor (m_formats m) (m_newdata m) (m_checkclip m) (m_copyclip m)
            (m_checksel m) (m_copysel m) v (m_socket m) (m_updateTimer m) (m_x11 m).
Definition set_socket (v : QLocalSocket) (m : ClipboardMonitor) :=
  mkMonitor (m_formats m) (m_newdata m) (m_checkclip m) (m_copyclip m)
            (m_checksel m) (m_copysel m) (m_lastHash m) v (m_updateTimer m) (m_x11 m).
Definition set_updateTimer (v : QTimer) (m : ClipboardMonitor) :=
  mkMonitor (m_formats m) (m_newdata m) (m_checkclip m) (m_copyclip m)
            (m_checksel m) (m_copysel m) (m_lastHash m) (m_socket m) v (m_x11 m).
Definition set_x11 (v : PrivateX11) (m : ClipboardMonitor) :=
  mkMonitor (m_formats m) (m_newdata m) (m_checkclip m) (m_copyclip m)
            (m_checksel m) (m_copysel m) (m_lastHash m) (m_socket m)
            (m_updateTimer m) v.

(** Change the monitor's fields, leave host and trace alone. *)
Definition upd (f : ClipboardMonitor -> ClipboardMonitor) (s : Sys) : Sys :=
  mkSys (f (mon s)) (host s) (trace s).

(** Append one effect to the trace. *)
Definition emit (e : Effect) (s : Sys) : Sys :=
  mkSys (mon s) (host s) (trace s ++ [e]).

(** ** What the monitor gets from outside this file

    [hash] and [cloneData] come from [client_server.h], the conversions of
    [QVariant] and the decoding of a [QVariantMap] from Qt; none of them
    is part of the sources at hand, so the handlers take them as an
    interface.  [Q_WS_X11] is the build switch of the preprocessor. *)
Class ClientServer : Type := {
  Q_WS_X11 : bool;
  (** [uint hash(const QMimeData &data, const QStringList &formats)] *)
  hash : QMimeData -> list string -> N;
  (** [QMimeData *cloneData(const QMimeData &data,
                            const QStringList *formats = NULL)] *)
  cloneData : QMimeData -> option (list string) -> QMimeData;
  QVariant : Type;
  toUInt : QVariant -> N;
  toBool : QVariant -> bool;
  toString : QVariant -> string;
  (** [settings_in >> settings] on the payload of the settings format *)
  decodeSettings : QByteArray -> gmap string QVariant
}.

(** Xlib's masks for [xbutton.state] (X.h). *)
Definition ShiftMask : Z := Z.shiftl 1 0.
Definition Button1Mask : Z := Z.shiftl 1 8.

(** The characters of the class [[;,\s]].  A text is kept as its
    characters below 256; of these the class holds the two separators and
    the white space of [QChar::isSpace()]: tab, line feed, vertical tab,
    form feed, carriage return, space and the no-break space (160). *)
Definition is_separator (c : ascii) : bool :=
  let n := N_of_ascii c in
  (n =? 59) || (n =? 44) || ((9 <=? n) && (n <=? 13)) || (n =? 32)
  || (n =? 160).

(** [QString::split(QRegExp("[;,\\s]+"))] with the default
    [KeepEmptyParts]: the pieces between maximal runs of separators; a
    run at either end leaves an empty piece there.  [cur] is the piece
    being read, reversed; [in_sep] tells that the previous character was a
    separator. *)
Fixpoint split_go (s : string) (cur : string) (in_sep : bool) : list string :=
  match s with
  | EmptyString => [String.rev cur]
  | String c s' =>
      if is_separator c
      then if in_sep then split_go s' cur true
           else String.rev cur :: split_go s' "" true
      else split_go s' (String c cur) false
  end.

Definition split (text : string) : list string := split_go text "" false.

(** ** The handlers *)

Section Handlers.
Context `{ClientServer}.

(** [QApplication::processEvents()]: hands control back to the event
    loop, which dispatches whatever is pending before it returns.  The
    handlers take it as given; [dispatch] below supplies it. *)
Variable processEvents : Sys -> Sys.

(** Modelled from the spec: [log] is declared in [client_server.h], which
    is not among the sources.  Section 7 gives the monitor a log stream
    as its only failure surface; a call adds one line to it. *)
Definition log (msg : string) (s : Sys) : Sys := emit (Log msg) s.

(** Modelled from the spec: [setClipboardData] is declared in
    [client_server.h], which is not among the sources.  It is the
    [writeClipboard(buffer, snapshot)] of section 1; by the own-write
    suppression of section 4.2 the buffer then holds [data] and the
    process owns it. *)
Definition setClipboardData (d : QMimeData) (mode : Mode) (s : Sys) : Sys :=
  let w := host s in
  let w' :=
    match mode with
    | Clipboard => mkWorld (Some d) (sel_data w) true (sel_owned w)
                           (x_display w) (x_pointer w)
    | Selection => mkWorld (clip_data w) (Some d) (clip_owned w) true
                           (x_display w) (x_pointer w)
    | FindBuffer => w
    end in
  mkSys (mon s) w' (trace s ++ [SetClipboardData d mode]).

(** Modelled from the spec: [clipboardData] is declared in
    [client_server.h], which is not among the sources.  It is the
    [readClipboard(buffer)] of section 1: the snapshot the buffer holds,
    or nothing when the buffer cannot be read (section 7). *)
Definition clipboardData (mode : Mode) (s : Sys) : option QMimeData :=
  match mode with
  | Clipboard => clip_data (host s)
  | Selection => sel_data (host s)
  | FindBuffer => None
  end.

(** [QClipboard::ownsClipboard()], [QClipboard::ownsSelection()]. *)
Definition ownsClipboard (s : Sys) : bool := clip_owned (host s).
Definition ownsSelection (s : Sys) : bool := sel_owned (host s).

(** [ClipboardMonitor::ClipboardMonitor], after a successful connect. *)
Definition init (w : World) : Sys :=
  mkSys (mkMonitor [] None false false false false 0
                   (mkSocket false)
                   (mkTimer true 500 false)
                   (mkX11 false (mkTimer true 100 false)))
        w [].

(** [ClipboardMonitor::setFormats]. *)
Definition setFormats (text : string) (s : Sys) : Sys :=
  upd (set_formats (split text)) s.

(** [PrivateX11::waitForKeyRelease]. *)
Definition waitForKeyRelease (s : Sys) : bool * Sys :=
  let x := m_x11 (mon s) in
  if isActive (m_timer x) then (true, s)
  else if negb (m_dsp x) && negb (x_display (host s)) then (false, s)
  else
    let x1 := mkX11 true (m_timer x) in
    if negb (Z.land (x_pointer (host s)) (Z.lor Button1Mask ShiftMask) =? 0)%Z
    then (true, upd (set_x11 (mkX11 true (start (m_timer x)))) s)
    else (false, upd (set_x11 x1) s).

(** [ClipboardMonitor::updateSelection(check)]; [check_selection] stands
    for the call [checkClipboard(QClipboard::Selection)], which is
    defined after it. *)
Definition updateSelection_with (check_selection : Sys -> Sys)
           (check : bool) (s : Sys) : bool * Sys :=
  if Q_WS_X11 then
    let '(waiting, s1) := waitForKeyRelease s in
    if waiting then (false, s1)
    else (true, if check then check_selection s1 else s1)
  else (true, s).

(** [ClipboardMonitor::clipboardChanged]: the item is written to the
    socket; the mode is not part of the message. *)
Definition clipboardChanged (mode : Mode) (d : QMimeData) (s : Sys) : Sys :=
  emit (WriteMessage d) s.

(** Lines 177-213 and 229-254: what [checkClipboard] does once it has
    decided that the buffer's data are needed. *)
Definition evaluate (mode : Mode) (s : Sys) : Sys :=
  match clipboardData mode s with
  | None => log "Cannot access clipboard data!" s
  | Some d =>
      let newHash := hash d (m_formats (mon s)) in
      if m_lastHash (mon s) =? newHash then s
      else
        let d' := cloneData d (Some (m_formats (mon s))) in
        if isEmpty (formats d') then s
        else
          let s1 := upd (set_lastHash newHash) s in
          if Q_WS_X11 then
            match mode with
            | Clipboard =>
                let s2 := if m_checkclip (mon s1)
                          then clipboardChanged mode (cloneData d' None) s1
                          else s1 in
                if m_copyclip (mon s2)
                then setClipboardData (cloneData d' None) Selection s2
                else s2
            | _ =>
                let s2 := if m_checksel (mon s1)
                          then clipboardChanged mode (cloneData d' None) s1
                          else s1 in
                if m_copysel (mon s2)
                then setClipboardData (cloneData d' None) Clipboard s2
                else s2
            end
          else clipboardChanged mode d' s1
  end.

(** [ClipboardMonitor::checkClipboard], both builds. *)
Definition checkClipboard (mode : Mode) (s : Sys) : Sys :=
  if Q_WS_X11 then
    match mode with
    | Clipboard =>
        if (negb (m_checkclip (mon s)) && negb (m_copyclip (mon s)))
           || ownsClipboard s
        then s
        else evaluate mode s
    | Selection =>
        if (negb (m_checksel (mon s)) && negb (m_copysel (mon s)))
           || ownsSelection s
        then s
        else
          let '(ready, s1) := updateSelection_with (fun s => s) false s in
          if negb ready then s1
          else evaluate mode (processEvents s1)
    | FindBuffer => s
    end
  else
    if negb (bool_decide (mode = Clipboard)) || negb (m_checkclip (mon s))
       || ownsClipboard s
    then s
    else evaluate mode s.

Definition updateSelection (check : bool) (s : Sys) : bool * Sys :=
  updateSelection_with (checkClipboard Selection) check s.

(** [ClipboardMonitor::updateClipboard(data, force)].  The first
    statement frees the push that [data] supersedes; storage is not part
    of the state, and storing [data] in the slot is all that is left of
    it. *)
Definition updateClipboard (d : QMimeData) (force : bool) (s : Sys) : Sys :=
  let s1 := upd (set_newdata (Some d)) s in
  if negb force && isActive (m_updateTimer (mon s1)) then s1
  else
    let s2 := upd (set_lastHash (hash d (formats d))) s1 in
    let s3 := setClipboardData d Clipboard s2 in
    let s4 := if Q_WS_X11
              then setClipboardData (cloneData d None) Selection s3
              else s3 in
    let s5 := upd (set_newdata None) s4 in
    upd (fun m => set_updateTimer (start (m_updateTimer m)) m) s5.

(** [ClipboardMonitor::updateTimeout]. *)
Definition updateTimeout (s : Sys) : Sys :=
  match m_newdata (mon s) with
  | Some d => updateClipboard d true s
  | None => s
  end.

(** Modelled from the spec: the setters are declared in
    [clipboardmonitor.h], which is not among the sources.  Section 4.4
    has a settings message update the configuration field that its key
    names; each setter stores its argument in the field of its name. *)
Definition setCheckClipboard (enable : bool) : Sys -> Sys :=
  upd (set_checkclip enable).
(** Modelled from the spec: declared in [clipboardmonitor.h], as
    [setCheckClipboard]. *)
Definition setCopyClipboard (enable : bool) : Sys -> Sys :=
  upd (set_copyclip enable).
(** Modelled from the spec: declared in [clipboardmonitor.h], as
    [setCheckClipboard]. *)
Definition setCheckSelection (enable : bool) : Sys -> Sys :=
  upd (set_checksel enable).
(** Modelled from the spec: declared in [clipboardmonitor.h], as
    [setCheckClipboard]. *)
Definition setCopySelection (enable : bool) : Sys -> Sys :=
  upd (set_copysel enable).

(** [QObject::blockSignals] on the socket. *)
Definition blockSignals (block : bool) : Sys -> Sys :=
  upd (set_socket (mkSocket block)).

(** Lines 303-315 of [readyRead]: the settings map is applied key by
    key. *)
Definition applySettings (settings : gmap string QVariant) (s : Sys) : Sys :=
  let s1 := match settings !! "_last_hash" with
            | Some v => if m_lastHash (mon s) =? 0
                        then upd (set_lastHash (toUInt v)) s else s
            | None => s
            end in
  let s2 := match settings !! "formats" with
            | Some v => setFormats (toString v) s1
            | None => s1
            end in
  let s3 := match settings !! "check_clipboard" with
            | Some v => setCheckClipboard (toBool v) s2
            | None => s2
            end in
  if Q_WS_X11 then
    let s4 := match settings !! "copy_clipboard" with
              | Some v => setCopyClipboard (toBool v) s3
              | None => s3
              end in
    let s5 := match settings !! "copy_selection" with
              | Some v => setCopySelection (toBool v) s4
              | None => s4
              end in
    match settings !! "check_selection" with
    | Some v => setCheckSelection (toBool v) s5
    | None => s5
    end
  else s3.

(** Lines 296-322: one message that was read to its end. *)
Definition handleItem (item : QMimeData) (s : Sys) : Sys :=
  let settings_data := data item "application/x-copyq-settings" in
  if negb (bytes_isEmpty settings_data) then
    let s1 := applySettings (decodeSettings settings_data) s in
    let s2 := if Q_WS_X11 then checkClipboard Selection s1 else s1 in
    checkClipboard Clipboard s2
  else updateClipboard (cloneData item None) false s.

(** Modelled from the spec: [readMessage] is defined in
    [client_server.cpp], which is not among the sources.  Section 6
    frames every message as a length and a payload; a frame that cannot
    be read to its end makes the read fail (sections 4.4 and 7).  The
    frame read is taken off the buffer either way. *)
Definition readMessage (buffered : list Frame)
  : option QMimeData * list Frame :=
  match buffered with
  | Complete item :: rest => (Some item, rest)
  | Truncated :: rest => (None, rest)
  | [] => (None, [])
  end.

(** The [while] loop of [readyRead] with what follows it, by recursion
    on the frames the socket has buffered ([readMessage], unfolded);
    the frames left unread are returned.  [buffered] is fixed when the
    drain starts: a frame that reaches the socket while the drain runs
    (during [processEvents]) is not followed, where the code would read it
    in the same drain.  The statements below that depend on which frames
    a drain reads are made for drains during which no frame arrives
    ([no_frames]). *)
Fixpoint readyRead_loop (buffered : list Frame) (s : Sys)
  : Sys * list Frame :=
  match buffered with
  | [] => (blockSignals false s, [])
  | Complete item :: rest => readyRead_loop rest (handleItem item s)
  | Truncated :: rest => (log "Cannot read message from server!" s, rest)
  end.

(** [ClipboardMonitor::readyRead]. *)
Definition readyRead (buffered : list Frame) (s : Sys) : Sys * list Frame :=
  readyRead_loop buffered (blockSignals true s).
End Handlers.

(** ** The event loop

    Everything that makes a handler run.  An event whose handler can reach
    [QApplication::processEvents()] carries the events that are pending at
    that moment; they are dispatched there, nested, in order. *)
#[local] Unset Elimination Schemes.
Inductive Event : Type :=
| ClipboardChanged (mode : Mode) (pending : list Event)
    (** [QClipboard::changed(mode)], connected to [checkClipboard] *)
| UpdateTimerTimeout
    (** [m_updateTimer] expires; connected to [updateTimeout] *)
| SelectionTimerTimeout (pending : list Event)
    (** the timer of [PrivateX11] expires; connected to
        [updateSelection()] on X11, which runs with [check] at its
        default, true: the change that was put off is looked at again *)
| SocketReadyRead (buffered : list Frame) (pending : list Event)
    (** [buffered] has reached the socket, which signals [readyRead()];
        while the signals of the socket are blocked no slot runs, and the
        frames are not followed any further *)
| HostChange (f : World -> World)
    (** the host changes on its own: another application stores data in a
        buffer, the pointer buttons or modifiers change *).
#[local] Set Elimination Schemes.

(** Induction on events, the pending events of an event included. *)

Section EventInduction.
Variable P : Event -> Prop.
Hypothesis P_changed :
  forall mode pending, Forall P pending -> P (ClipboardChanged mode pending).
Hypothesis P_update : P UpdateTimerTimeout.
Hypothesis P_selection :
  forall pending, Forall P pending -> P (SelectionTimerTimeout pending).
Hypothesis P_read :
  forall buffered pending, Forall P pending -> P (SocketReadyRead buffered pending).
Hypothesis P_host : forall f, P (HostChange f).

Fixpoint Event_nested_ind (e : Event) : P e :=
  let all :=
    fix all (l : list Event) : Forall P l :=
      match l with
      | [] => @List.Forall_nil _ P
      | e' :: l' => @List.Forall_cons _ P e' l' (Event_nested_ind e') (all l')
      end in
  match e with
  | ClipboardChanged mode pending => P_changed mode pending (all pending)
  | UpdateTimerTimeout => P_update
  | SelectionTimerTimeout pending => P_selection pending (all pending)
  | SocketReadyRead buffered pending => P_read buffered pending (all pending)
  | HostChange f => P_host f
  end.
End EventInduction.

Section EventLoop.
Context `{ClientServer}.

Fixpoint dispatch (e : Event) (s : Sys) : Sys :=
  match e with
  | ClipboardChanged mode pending =>
      checkClipboard (fun s0 => fold_left (fun a e' => dispatch e' a) pending s0)
                     mode s
  | UpdateTimerTimeout =>
      if isActive (m_updateTimer (mon s))
      then updateTimeout
             (upd (fun m => set_updateTimer (expire (m_updateTimer m)) m) s)
      else s
  | SelectionTimerTimeout pending =>
      if Q_WS_X11 && isActive (m_timer (m_x11 (mon s)))
      then snd (updateSelection
                  (fun s0 => fold_left (fun a e' => dispatch e' a) pending s0)
                  true
                  (upd (fun m => set_x11 (mkX11 (m_dsp (m_x11 m))
                                                (expire (m_timer (m_x11 m)))) m) s))
      else s
  | SocketReadyRead buffered pending =>
      if signalsBlocked (m_socket (mon s)) then s
      else fst (readyRead
                  (fun s0 => fold_left (fun a e' => dispatch e' a) pending s0)
                  buffered s)
  | HostChange f => mkSys (mon s) (f (host s)) (trace s)
  end.

(** The events of a run, dispatched one after the other. *)
Definition run (events : list Event) (s : Sys) : Sys :=
  fold_left (fun a e => dispatch e a) events s.
End EventLoop.

(** ** Reading a run *)

(** The buffer writes of a trace, in order. *)
Fixpoint writes (t : list Effect) : list (QMimeData * Mode) :=
  match t with
  | [] => []
  | SetClipboardData d mode :: t' => (d, mode) :: writes t'
  | _ :: t' => writes t'
  end.

(** The change notifications sent to the server, in order. *)
Fixpoint notifications (t : list Effect) : list QMimeData :=
  match t with
  | [] => []
  | WriteMessage item :: t' => item :: notifications t'
  | _ :: t' => notifications t'
  end.

(** Another application stores [d] in the buffer [mode]: the buffer holds
    [d] and this process does not own it. *)
Definition copied (mode : Mode) (d : QMimeData) (w : World) : World :=
  match mode with
  | Clipboard => mkWorld (Some d) (sel_data w) false (sel_owned w)
                         (x_display w) (x_pointer w)
  | Selection => mkWorld (clip_data w) (Some d) (clip_owned w) false
                         (x_display w) (x_pointer w)
  | FindBuffer => w
  end.

(** An external change of the buffer [mode] to [snapshot], observed with
    no other event pending. *)
Definition onExternalChange `{ClientServer}
           (mode : Mode) (snapshot : QMimeData) (s : Sys) : Sys :=
  run [HostChange (copied mode snapshot); ClipboardChanged mode []] s.

(** The buffer's watch flag and mirror flag. *)
Definition watch_flag (mode : Mode) (m : ClipboardMonitor) : bool :=
  match mode with
  | Clipboard => m_checkclip m
  | Selection => m_checksel m
  | FindBuffer => false
  end.

Definition mirror_flag (mode : Mode) (m : ClipboardMonitor) : bool :=
  match mode with
  | Clipboard => m_copyclip m
  | Selection => m_copysel m
  | FindBuffer => false
  end.

(** Button 1 or shift is held, as [waitForKeyRelease] tests it. *)
Definition held (w : World) : bool :=
  negb (Z.land (x_pointer w) (Z.lor Button1Mask ShiftMask) =? 0)%Z.

(** The effects of applying a push: the primary buffer is written, and
    the selection on the X11 build. *)
Definition apply_effects `{ClientServer} (d : QMimeData) : list Effect :=
  SetClipboardData d Clipboard
  :: (if Q_WS_X11 then [SetClipboardData (cloneData d None) Selection] else []).

(** The states the monitor can be in between two events. *)
Definition reachable `{ClientServer} (s : Sys) : Prop :=
  exists w events, s = run events (init w).

(** The invariant of the pending push: the slot is filled only while the
    debounce timer runs. *)
Definition pending_inv (s : Sys) : Prop :=
  m_newdata (mon s) <> None -> isActive (m_updateTimer (mon s)) = true.

(** How the two timers are set up. *)
Definition timer_setup (s : Sys) : (bool * N) * (bool * N) :=
  ((singleShot (m_updateTimer (mon s)), interval (m_updateTimer (mon s))),
   (singleShot (m_timer (m_x11 (mon s))), interval (m_timer (m_x11 (mon s))))).

(** The configuration that settings messages write. *)
Definition config (s : Sys) : list string * (bool * bool) * (bool * bool) :=
  (m_formats (mon s), (m_checkclip (mon s), m_copyclip (mon s)),
   (m_checksel (mon s), m_copysel (mon s))).

(** ** A model of the interface

    Used to run the handlers on concrete inputs. *)
Module Model.

(** A string hash with 28 significant bits, folded one character at a
    time. *)
Fixpoint qHash_go (s : string) (h : N) : N :=
  match s with
  | EmptyString => h
  | String c s' =>
      let h1 := (N.shiftl h 4 + N_of_ascii c) mod 2 ^ 32 in
      let h2 := N.lxor h1 (N.shiftr (N.land h1 0xf0000000) 23) in
      qHash_go s' (N.land h2 0x0fffffff)
  end.

Definition qHash (s : string) : N := qHash_go s 0.

(** Modelled from the spec: [restrict] of section 4.1, the entries
    whose names are in the format set, or the whole snapshot when the
    set is empty. *)
Definition restrict (d : QMimeData) (fs : list string) : QMimeData :=
  if isEmpty fs then d
  else filter (fun e => bool_decide (e.1 ∈ fs)) d.

(** Modelled from the spec: [fingerprint] of sections 3 and 4.1, an
    unsigned integer that does not depend on the order of the entries
    and is 0 for no data. *)
Definition fingerprint (d : QMimeData) : N :=
  foldr (fun e acc => N.lxor ((qHash e.2 + qHash e.1) mod 2 ^ 32) acc) 0 d.

(** The values a settings map holds. *)
Inductive Variant : Type :=
| VUInt (n : N)
| VBool (b : bool)
| VString (s : string).

Definition Variant_toUInt (v : Variant) : N :=
  match v with VUInt n => n | VBool b => if b then 1 else 0 | VString _ => 0 end.
Definition Variant_toBool (v : Variant) : bool :=
  match v with
  | VUInt n => negb (n =? 0)
  | VBool b => b
  | VString s => negb (bool_decide (s = "" ∨ s = "0" ∨ s = "false"))
  end.
Definition Variant_toString (v : Variant) : string :=
  match v with
  | VUInt n => pretty n
  | VBool b => if b then "true" else "false"
  | VString s => s
  end.

(** The payload of the settings format, in the model: one character for
    the kind of each entry, [h] for a last hash of 7, [f] for the format
    list "text/plain", [C] and [c] for check_clipboard on and off, [S]
    and [s] for check_selection, [M] and [m] for copy_clipboard, [N] and
    [n] for copy_selection. *)
Fixpoint decode (payload : string) : gmap string Variant :=
  match payload with
  | EmptyString => ∅
  | String c rest =>
      let m := decode rest in
      if decide (c = "h"%char) then <["_last_hash" := VUInt 7]> m
      else if decide (c = "f"%char) then <["formats" := VString "text/plain"]> m
      else if decide (c = "C"%char) then <["check_clipboard" := VBool true]> m
      else if decide (c = "c"%char) then <["check_clipboard" := VBool false]> m
      else if decide (c = "S"%char) then <["check_selection" := VBool true]> m
      else if decide (c = "s"%char) then <["check_selection" := VBool false]> m
      else if decide (c = "M"%char) then <["copy_clipboard" := VBool true]> m
      else if decide (c = "m"%char) then <["copy_clipboard" := VBool false]> m
      else if decide (c = "N"%char) then <["copy_selection" := VBool true]> m
      else if decide (c = "n"%char) then <["copy_selection" := VBool false]> m
      else m
  end.

Definition deps (x11 : bool) : ClientServer :=
  {| Q_WS_X11 := x11;
     hash := fun d fs => fingerprint (restrict d fs);
     cloneData := fun d fs => match fs with Some l => restrict d l | None => d end;
     QVariant := Variant;
     toUInt := Variant_toUInt;
     toBool := Variant_toBool;
     toString := Variant_toString;
     decodeSettings := decode |}.

(** A host where nothing is stored and nothing is pressed. *)
Definition quiet : World := mkWorld None None false false true 0.

Definition text_a : QMimeData := [("text/plain", "a")].
Definition text_b : QMimeData := [("text/plain", "b")].
Definition image : QMimeData := [("image/png", "PNG")].
Definition settings (payload : string) : QMimeData :=
  [("application/x-copyq-settings", payload)].
End Model.


(** ** Reading a list of formats *)

(** No character of [s] is a separator. *)
Fixpoint sep_free (s : string) : bool :=
  match s with
  | EmptyString => true
  | String c s' => negb (is_separator c) && sep_free s'
  end.

(** Every character of [s] is a printable ASCII character (33 to 126)
    other than the semicolon and the comma. *)
Fixpoint plain (s : string) : bool :=
  match s with
  | EmptyString => true
  | String c s' =>
      let n := N_of_ascii c in
      (33 <=? n) && (n <=? 126) && negb (n =? 59) && negb (n =? 44) && plain s'
  end.

(** A format name: not empty, made of such characters. *)
Definition format_name (s : string) : Prop :=
  s <> "" /\ plain s = true.

(** The names of [l], each followed by the separator [sep] but the last. *)
Fixpoint join (sep : ascii) (l : list string) : string :=
  match l with
  | [] => ""
  | [p] => p
  | p :: l' => p +:+ String sep (join sep l')
  end.

(** The buffer a mirror copy goes to. *)
Definition opposite (mode : Mode) : Mode :=
  match mode with
  | Clipboard => Selection
  | Selection => Clipboard
  | FindBuffer => FindBuffer
  end.

(** Whether this process owns the buffer [mode]. *)
Definition owned (mode : Mode) (w : World) : bool :=
  match mode with
  | Clipboard => clip_owned w
  | Selection => sel_owned w
  | FindBuffer => false
  end.

(** Pushes that arrive one after the other. *)
Definition pushes `{ClientServer} (l : list QMimeData) (s : Sys) : Sys :=
  fold_left (fun a d => updateClipboard d false a) l s.

(** The item [checkClipboard] sends for the data [d] of a buffer: the
    accepted part of [d], cloned once more on the X11 build. *)
Definition reported `{ClientServer} (d : QMimeData) (fs : list string) : QMimeData :=
  if Q_WS_X11 then cloneData (cloneData d (Some fs)) None
  else cloneData d (Some fs).

(** ** A model for a restart

    As [Model.deps], but every settings map also carries the fingerprint
    of the text "a" as its last hash: what a server sends that saw that
    text last. *)
Definition restart_deps (x11 : bool) : ClientServer :=
  {| Q_WS_X11 := x11;
     hash := fun d fs => Model.fingerprint (Model.restrict d fs);
     cloneData := fun d fs =>
                    match fs with Some l => Model.restrict d l | None => d end;
     QVariant := Model.Variant;
     toUInt := Model.Variant_toUInt;
     toBool := Model.Variant_toBool;
     toString := Model.Variant_toString;
     decodeSettings := fun payload =>
       <["_last_hash" := Model.VUInt (Model.fingerprint Model.text_a)]>
         (Model.decode payload) |}.

(** ** More about runs *)

(** The event brings no frame to the socket, nor does an event pending
    in it. *)
Fixpoint no_frames (e : Event) : bool :=
  match e with
  | ClipboardChanged _ pending => forallb no_frames pending
  | UpdateTimerTimeout => true
  | SelectionTimerTimeout pending => forallb no_frames pending
  | SocketReadyRead _ _ => false
  | HostChange _ => true
  end.

(** The format that marks a settings message. *)
Definition settings_format : string := "application/x-copyq-settings".

(** A settings message among the complete frames of [buffered] has the
    key [k] in its map. *)
Definition mentions `{ClientServer} (k : string) (buffered : list Frame) : Prop :=
  exists item,
    Complete item ∈ buffered
    /\ data item settings_format <> ""
    /\ decodeSettings (data item settings_format) !! k <> None.

(** From [s] to [s'], every configuration field whose key is [absent]
    has kept its value. *)
Definition absent_keys_kept (absent : string -> Prop) (s s' : Sys) : Prop :=
  (absent "formats" -> m_formats (mon s') = m_formats (mon s))
  /\ (absent "check_clipboard" -> m_checkclip (mon s') = m_checkclip (mon s))
  /\ (absent "copy_clipboard" -> m_copyclip (mon s') = m_copyclip (mon s))
  /\ (absent "check_selection" -> m_checksel (mon s') = m_checksel (mon s))
  /\ (absent "copy_selection" -> m_copysel (mon s') = m_copysel (mon s)).

(** The button is pressed while [d] is being selected. *)
Definition selecting (d : QMimeData) (w : World) : World :=
  mkWorld (clip_data w) (Some d) (clip_owned w) false (x_display w) Button1Mask.

(** What the guard answers in [s]: yes while its timer runs, and when a
    display is at hand with button 1 or shift held. *)
Definition guard_answer (s : Sys) : bool :=
  isActive (m_timer (m_x11 (mon s)))
  || ((m_dsp (m_x11 (mon s)) || x_display (host s)) && held (host s)).

(** The buttons and modifiers are let go. *)
Definition released (w : World) : World :=
  mkWorld (clip_data w) (sel_data w) (clip_owned w) (sel_owned w) (x_display w) 0.

(** Every frame can be read to its end. *)
Definition all_complete (buffered : list Frame) : bool :=
  forallb (fun f => match f with Complete _ => true | Truncated => false end)
          buffered.

(** No frame of the event, or of an event pending in it, is truncated. *)
Fixpoint intact (e : Event) : bool :=
  match e with
  | ClipboardChanged _ pending => forallb intact pending
  | UpdateTimerTimeout => true
  | SelectionTimerTimeout pending => forallb intact pending
  | SocketReadyRead buffered pending => all_complete buffered && forallb intact pending
  | HostChange _ => true
  end.

(** The three flags that only the X11 build reads from the settings. *)
Definition x11_flags (s : Sys) : bool * bool * bool :=
  (m_copyclip (mon s), m_checksel (mon s), m_copysel (mon s)).

(** ** Proofs *)

(** Case analysis on every test the goal branches on. *)
Ltac branch :=
  repeat match goal with
         | |- context [if ?b then _ else _] => destruct b eqn:?
         | |- context [match ?x with _ => _ end] => destruct x eqn:?
         end.

(** ** Runs on the model *)

Example split_formats :
  split "text/plain;image/png, text/html" = ["text/plain"; "image/png"; "text/html"]
  /\ split "a;" = ["a"; ""] /\ split "" = [""].
Proof. repeat split; reflexivity. Qed.

(** "text/plain" is the accepted format and the clipboard is watched;
    another application stores a text with an image: one notification,
    with the text only. *)
Example filtered_notification :
  let H := Model.deps true in
  notifications
    (trace (run [SocketReadyRead [Complete (Model.settings "fC")] [];
                 HostChange (copied Clipboard
                               [("text/plain", "hello"); ("image/png", "PNG")]);
                 ClipboardChanged Clipboard []] (init Model.quiet)))
  = [[("text/plain", "hello")]].
Proof. vm_compute. reflexivity. Qed.

(** What the monitor wrote itself comes back as a change of a buffer it
    owns, and is not looked at. *)
Example own_write_not_reported :
  let H := Model.deps true in
  let s := run [SocketReadyRead [Complete (Model.settings "fCS")] [];
                SocketReadyRead [Complete Model.text_a] []] (init Model.quiet) in
  run [ClipboardChanged Clipboard []; ClipboardChanged Selection []] s = s.
Proof. vm_compute. reflexivity. Qed.

(** ** Basic facts *)

Lemma writes_app (t1 t2 : list Effect) :
  writes (t1 ++ t2) = (writes t1 ++ writes t2)%list.
Proof.
  induction t1 as [|e t1 IH]; simpl; [reflexivity|].
  destruct e; simpl; rewrite IH; reflexivity.
Qed.

Lemma notifications_app (t1 t2 : list Effect) :
  notifications (t1 ++ t2) = (notifications t1 ++ notifications t2)%list.
Proof.
  induction t1 as [|e t1 IH]; simpl; [reflexivity|].
  destruct e; simpl; rewrite IH; reflexivity.
Qed.

Section PushFacts.
Context `{ClientServer}.

(** A push that is applied: the state it leaves. *)
Lemma updateClipboard_applied (d : QMimeData) (force : bool) (s : Sys) :
  negb force && isActive (m_updateTimer (mon s)) = false ->
  let s' := updateClipboard d force s in
  trace s' = (trace s ++ apply_effects d)%list
  /\ m_lastHash (mon s') = hash d (formats d)
  /\ m_newdata (mon s') = None
  /\ isActive (m_updateTimer (mon s')) = true
  /\ clip_data (host s') = Some d
  /\ m_formats (mon s') = m_formats (mon s).
Proof.
  intros Hgate. unfold updateClipboard. simpl. rewrite Hgate.
  unfold apply_effects. destruct Q_WS_X11; simpl;
    rewrite <- ?app_assoc; simpl; repeat split; reflexivity.
Qed.

(** A push that arrives while the timer runs is only stored. *)
Lemma updateClipboard_deferred (d : QMimeData) (s : Sys) :
  isActive (m_updateTimer (mon s)) = true ->
  updateClipboard d false s = upd (set_newdata (Some d)) s.
Proof.
  intros Hact. unfold updateClipboard. simpl. rewrite Hact. reflexivity.
Qed.
End PushFacts.

(** ** Debounced pushes *)

Section Debounce.
Context `{ClientServer}.

(** C1, as amended.  A push [p1] that arrives while the debounce timer
    is not running is written at once and starts the timer; a push [p2]
    that arrives before the timer fires is stored and writes nothing;
    when the timer fires, [p2] and nothing else is written, the primary
    buffer holds [p2] and the slot is empty.  (Each application writes
    the primary buffer, and the selection too on the X11 build.) *)
Theorem debounce_leading_then_trailing (p1 p2 : QMimeData) (s : Sys) :
  isActive (m_updateTimer (mon s)) = false ->
  let s1 := updateClipboard p1 false s in
  let s2 := updateClipboard p2 false s1 in
  let s3 := dispatch UpdateTimerTimeout s2 in
  trace s1 = (trace s ++ apply_effects p1)%list
  /\ trace s2 = trace s1
  /\ m_newdata (mon s2) = Some p2
  /\ trace s3 = (trace s2 ++ apply_effects p2)%list
  /\ clip_data (host s3) = Some p2
  /\ m_newdata (mon s3) = None.
Proof.
  intros Hidle s1 s2 s3.
  destruct (updateClipboard_applied p1 false s) as (Ht1 & _ & _ & Hact1 & _).
  { rewrite Hidle. reflexivity. }
  fold s1 in Ht1, Hact1.
  assert (Hs2 : s2 = upd (set_newdata (Some p2)) s1)
    by (apply updateClipboard_deferred; exact Hact1).
  assert (Hs3 : s3 = updateClipboard p2 true
                       (upd (fun m => set_updateTimer (expire (m_updateTimer m)) m) s2)).
  { unfold s3. simpl. rewrite Hs2 at 1. simpl. rewrite Hact1.
    unfold updateTimeout. rewrite Hs2. reflexivity. }
  destruct (updateClipboard_applied p2 true
              (upd (fun m => set_updateTimer (expire (m_updateTimer m)) m) s2))
    as (Ht3 & _ & Hnew3 & _ & Hclip3 & _); [reflexivity|].
  rewrite <- Hs3 in Ht3, Hnew3, Hclip3.
  repeat split; try assumption.
  - rewrite Hs2. reflexivity.
  - rewrite Hs2. reflexivity.
Qed.

(** C4, as amended.  A push that is applied, at once or when the timer
    fires, records the fingerprint of the pushed data, writes the data
    to the primary buffer and, on the X11 build, a copy to the selection
    whatever the mirror flags are; on the other builds it writes nothing
    to the selection. *)
Theorem push_apply_writes (d : QMimeData) (force : bool) (s : Sys) :
  negb force && isActive (m_updateTimer (mon s)) = false ->
  let s' := updateClipboard d force s in
  m_lastHash (mon s') = hash d (formats d)
  /\ writes (trace s')
     = (writes (trace s)
        ++ (d, Clipboard)
           :: (if Q_WS_X11 then [(cloneData d None, Selection)] else []))%list
  /\ (m_newdata (mon s) = Some d -> updateTimeout s = updateClipboard d true s).
Proof.
  intros Hgate s'.
  destruct (updateClipboard_applied d force s Hgate) as (Ht & Hh & _).
  fold s' in Ht, Hh. split; [exact Hh|]. split.
  - rewrite Ht, writes_app. unfold apply_effects.
    destruct Q_WS_X11; reflexivity.
  - intros Hnew. unfold updateTimeout. rewrite Hnew. reflexivity.
Qed.
End Debounce.

(** C1, witness: the amended statement at two text pushes on the X11
    build, from the initial state. *)
Lemma debounce_leading_then_trailing_witness :
  let H := Model.deps true in
  let s := init Model.quiet in
  let s1 := updateClipboard Model.text_a false s in
  let s2 := updateClipboard Model.text_b false s1 in
  let s3 := dispatch UpdateTimerTimeout s2 in
  isActive (m_updateTimer (mon s)) = false
  /\ trace s3 = (trace s2 ++ apply_effects Model.text_b)%list
  /\ clip_data (host s3) = Some Model.text_b.
Proof.
  intros H s s1 s2 s3.
  pose proof (@debounce_leading_then_trailing H Model.text_a Model.text_b s
                eq_refl) as W.
  split; [reflexivity|]. split; apply W.
Defined.

(** C1, counterexample: two pushes within the debounce period, then the
    timer; the primary buffer is written twice, first with the content of
    the first push. *)
Lemma debounce_writes_twice :
  let H := Model.deps false in
  let t := trace (run [SocketReadyRead [Complete Model.text_a] [];
                       SocketReadyRead [Complete Model.text_b] [];
                       UpdateTimerTimeout] (init Model.quiet)) in
  writes t = [(Model.text_a, Clipboard); (Model.text_b, Clipboard)]
  /\ length (writes t) <> 1%nat.
Proof. vm_compute. split; [reflexivity | discriminate]. Qed.

(** C4, witness: a forced application on the build without X11. *)
Lemma push_apply_writes_witness :
  let H := Model.deps false in
  let s' := updateClipboard Model.text_a true (init Model.quiet) in
  writes (trace s') = [(Model.text_a, Clipboard)].
Proof.
  intros H s'.
  pose proof (@push_apply_writes H Model.text_a true (init Model.quiet) eq_refl)
    as (_ & W & _).
  exact W.
Defined.

(** C4, counterexample: on the X11 build with the mirror flags off, an
    applied push writes the selection all the same. *)
Lemma push_writes_selection_unmirrored :
  let H := Model.deps true in
  let s := init Model.quiet in
  m_copyclip (mon s) = false /\ m_copysel (mon s) = false
  /\ writes (trace (updateClipboard Model.text_a false s))
     = [(Model.text_a, Clipboard); (Model.text_a, Selection)].
Proof. vm_compute. repeat split; reflexivity. Qed.

(** ** Observing a buffer *)

Section Observation.
Context `{ClientServer}.

(** The guard changes nothing but the [PrivateX11] object. *)
Lemma waitForKeyRelease_frame (s : Sys) :
  let s' := snd (waitForKeyRelease s) in
  trace s' = trace s /\ host s' = host s
  /\ exists x, mon s' = set_x11 x (mon s).
Proof.
  unfold waitForKeyRelease. branch; simpl; repeat split; try eauto.
  all: exists (m_x11 (mon s)); destruct (mon s); reflexivity.
Qed.

(** When the guard answers yes, its timer is running afterwards, with
    the interval it had. *)
Lemma waitForKeyRelease_arms (s : Sys) :
  fst (waitForKeyRelease s) = true ->
  let x' := m_x11 (mon (snd (waitForKeyRelease s))) in
  isActive (m_timer x') = true
  /\ interval (m_timer x') = interval (m_timer (m_x11 (mon s))).
Proof.
  unfold waitForKeyRelease. branch; simpl; intros Hw; try discriminate.
  - split; [assumption | reflexivity].
  - split; reflexivity.
Qed.

(** The evaluation sends at most one notification, and none unless the
    buffer is watched. *)
Lemma evaluate_notifications (mode : Mode) (s : Sys) :
  notifications (trace (evaluate mode s)) = notifications (trace s)
  \/ (watch_flag mode (mon s) = true \/ Q_WS_X11 = false)
     /\ exists item,
         notifications (trace (evaluate mode s))
         = (notifications (trace s) ++ [item])%list
         /\ exists d, clipboardData mode s = Some d
                      /\ m_lastHash (mon (evaluate mode s))
                         = hash d (m_formats (mon s)).
Proof.
  unfold evaluate.
  destruct (clipboardData mode s) as [d|] eqn:Hd; simpl.
  2: { left. rewrite notifications_app. simpl. apply app_nil_r. }
  destruct (m_lastHash (mon s) =? hash d (m_formats (mon s))); [left; reflexivity|].
  destruct (isEmpty _); [left; reflexivity|].
  destruct Q_WS_X11 eqn:HX.
  - destruct mode; simpl.
    + destruct (m_checkclip (mon s)) eqn:Hc; simpl.
      * right. split; [left; reflexivity|]. eexists. split.
        -- destruct (m_copyclip (mon s)); simpl;
             rewrite ?notifications_app; simpl;
             rewrite ?notifications_app; simpl; rewrite ?app_nil_r; reflexivity.
        -- exists d. split; [reflexivity|].
           destruct (m_copyclip (mon s)); reflexivity.
      * left. destruct (m_copyclip (mon s)); simpl;
          rewrite ?notifications_app; simpl; rewrite ?app_nil_r; reflexivity.
    + destruct (m_checksel (mon s)) eqn:Hc; simpl.
      * right. split; [left; reflexivity|]. eexists. split.
        -- destruct (m_copysel (mon s)); simpl;
             rewrite ?notifications_app; simpl;
             rewrite ?notifications_app; simpl; rewrite ?app_nil_r; reflexivity.
        -- exists d. split; [reflexivity|].
           destruct (m_copysel (mon s)); reflexivity.
      * left. destruct (m_copysel (mon s)); simpl;
          rewrite ?notifications_app; simpl; rewrite ?app_nil_r; reflexivity.
    + discriminate Hd.
  - right. split; [right; reflexivity|]. eexists. split.
    + simpl. rewrite notifications_app. reflexivity.
    + exists d. split; reflexivity.
Qed.

(** With no event pending, [checkClipboard] either leaves trace, host
    and fingerprint as they are, or evaluates the buffer in a state that
    differs from the one it started from in the [PrivateX11] object
    only. *)
Lemma checkClipboard_cases (mode : Mode) (s : Sys) :
  let s' := checkClipboard (fun s0 => s0) mode s in
  (trace s' = trace s /\ host s' = host s
   /\ exists x, mon s' = set_x11 x (mon s))
  \/ (exists s1, s' = evaluate mode s1
                 /\ trace s1 = trace s /\ host s1 = host s
                 /\ (exists x, mon s1 = set_x11 x (mon s))
                 /\ (Q_WS_X11 = true ->
                     watch_flag mode (mon s) || mirror_flag mode (mon s) = true)
                 /\ (Q_WS_X11 = false -> watch_flag mode (mon s) = true)).
Proof.
  assert (Hid : exists x, mon s = set_x11 x (mon s))
    by (exists (m_x11 (mon s)); destruct (mon s); reflexivity).
  unfold checkClipboard.
  destruct Q_WS_X11 eqn:HX.
  - destruct mode; simpl.
    + destruct (_ || _) eqn:Hg; [left; auto|].
      right. exists s. repeat split; auto; try discriminate.
      intros _. apply orb_false_iff in Hg as [Hg _].
      destruct (m_checkclip (mon s)), (m_copyclip (mon s)); auto.
    + destruct (_ || _) eqn:Hg; [left; auto|].
      unfold updateSelection_with. rewrite HX.
      pose proof (waitForKeyRelease_frame s) as (Ht & Hh & Hx).
      destruct (waitForKeyRelease s) as [waiting s1]; simpl in *.
      destruct waiting; simpl; [left; auto|].
      right. exists s1. repeat split; auto; try discriminate.
      intros _. apply orb_false_iff in Hg as [Hg _].
      destruct (m_checksel (mon s)), (m_copysel (mon s)); auto.
    + left; auto.
  - destruct (_ || _) eqn:Hg; [left; auto|].
    right. exists s. repeat split; auto; try discriminate.
    intros _. apply orb_false_iff in Hg as [Hg _].
    apply orb_false_iff in Hg as [Hm Hc].
    apply negb_false_iff in Hm, Hc. apply bool_decide_eq_true in Hm.
    subst mode. exact Hc.
Qed.
End Observation.

Section Dedup.
Context `{ClientServer}.

Lemma watch_flag_set_x11 (mode : Mode) (x : PrivateX11) (m : ClipboardMonitor) :
  watch_flag mode (set_x11 x m) = watch_flag mode m.
Proof. destruct mode; reflexivity. Qed.

Lemma clipboardData_host (mode : Mode) (s1 s2 : Sys) :
  host s1 = host s2 -> clipboardData mode s1 = clipboardData mode s2.
Proof. unfold clipboardData. intros ->. reflexivity. Qed.

Lemma clipboardData_copied (mode : Mode) (d : QMimeData) (s : Sys) :
  mode <> FindBuffer ->
  clipboardData mode (mkSys (mon s) (copied mode d (host s)) (trace s)) = Some d.
Proof. destruct mode; simpl; intros Hm; [reflexivity | reflexivity | congruence]. Qed.

(** The evaluation of data whose fingerprint is the last one seen
    changes nothing. *)
Lemma evaluate_same_hash (mode : Mode) (d : QMimeData) (s : Sys) :
  clipboardData mode s = Some d ->
  m_lastHash (mon s) = hash d (m_formats (mon s)) ->
  evaluate mode s = s.
Proof.
  intros Hd Hh. unfold evaluate. rewrite Hd, Hh, N.eqb_refl. reflexivity.
Qed.

(** What one observation with no event pending sends: nothing, or one
    notification, and then the fingerprint of the observed data is the
    last one seen. *)
Lemma checkClipboard_notifications (mode : Mode) (s : Sys) :
  let s' := checkClipboard (fun s0 => s0) mode s in
  notifications (trace s') = notifications (trace s)
  \/ (watch_flag mode (mon s) = true
      /\ exists item,
          notifications (trace s') = (notifications (trace s) ++ [item])%list
          /\ exists d, clipboardData mode s = Some d
                       /\ m_lastHash (mon s') = hash d (m_formats (mon s))).
Proof.
  intros s'. destruct (checkClipboard_cases mode s) as [(Ht & _) | Hev].
  { left. fold s' in Ht. rewrite Ht. reflexivity. }
  destruct Hev as (s1 & Hs' & Ht & Hh & (x & Hx) & HX1 & HX0).
  fold s' in Hs'. rewrite Hs'.
  destruct (evaluate_notifications mode s1) as [Hn | (Hw & item & Hn & d & Hd & Hl)].
  { left. rewrite Hn, Ht. reflexivity. }
  right. split.
  - destruct Hw as [Hw | Hw].
    + rewrite Hx, watch_flag_set_x11 in Hw. exact Hw.
    + apply HX0, Hw.
  - exists item. rewrite Hn, Ht. split; [reflexivity|].
    exists d. rewrite <- (clipboardData_host mode s1 s Hh). split; [exact Hd|].
    rewrite Hl, Hx. destruct (mon s); reflexivity.
Qed.

(** An observation of data whose fingerprint is the last one seen has
    no effect and leaves the fingerprint. *)
Lemma checkClipboard_same_hash (mode : Mode) (d : QMimeData) (s : Sys) :
  clipboardData mode s = Some d ->
  m_lastHash (mon s) = hash d (m_formats (mon s)) ->
  let s' := checkClipboard (fun s0 => s0) mode s in
  trace s' = trace s /\ m_lastHash (mon s') = m_lastHash (mon s).
Proof.
  intros Hd Hl. cbv zeta.
  destruct (checkClipboard_cases mode s) as [(Ht & _ & x & Hx) | Hev].
  { split; [exact Ht|]. rewrite Hx. destruct (mon s); reflexivity. }
  destruct Hev as (s1 & Hs' & Ht & Hh & (x & Hx) & _).
  assert (Hs1 : evaluate mode s1 = s1).
  { apply (evaluate_same_hash mode d).
    - rewrite (clipboardData_host mode s1 s Hh). exact Hd.
    - rewrite Hx. destruct (mon s); simpl in *. exact Hl. }
  rewrite Hs', Hs1. split; [exact Ht|].
  rewrite Hx. destruct (mon s); reflexivity.
Qed.

(** C5, as amended.  Two external changes in a row whose snapshots have
    the same restriction to the accepted formats send at most one
    notification; when the first one is reported, the fingerprint of its
    data is recorded and the second one is ignored: it has no effect and
    the fingerprint stays. *)
Theorem dedup_second_change_ignored (mode : Mode) (d1 d2 : QMimeData) (s : Sys) :
  (forall c1 c2 fs, cloneData c1 (Some fs) = cloneData c2 (Some fs) ->
                    hash c1 fs = hash c2 fs) ->
  cloneData d1 (Some (m_formats (mon s))) = cloneData d2 (Some (m_formats (mon s))) ->
  let s1 := onExternalChange mode d1 s in
  let s2 := onExternalChange mode d2 s1 in
  (length (notifications (trace s2)) <= length (notifications (trace s)) + 1)%nat
  /\ (notifications (trace s1) <> notifications (trace s) ->
      m_lastHash (mon s1) = hash d1 (m_formats (mon s))
      /\ trace s2 = trace s1
      /\ m_lastHash (mon s2) = m_lastHash (mon s1)).
Proof.
  intros Hhash Hsame s1 s2.
  set (a := mkSys (mon s) (copied mode d1 (host s)) (trace s)).
  set (b := mkSys (mon s1) (copied mode d2 (host s1)) (trace s1)).
  assert (Hs1 : s1 = checkClipboard (fun s0 => s0) mode a) by reflexivity.
  assert (Hs2 : s2 = checkClipboard (fun s0 => s0) mode b) by reflexivity.
  assert (Hreported :
            notifications (trace s1) <> notifications (trace s) ->
            m_lastHash (mon s1) = hash d1 (m_formats (mon s))
            /\ trace s2 = trace s1
            /\ m_lastHash (mon s2) = m_lastHash (mon s1)).
  { intros Hne.
    destruct (checkClipboard_notifications mode a)
      as [Hn | (Hw & item & Hn & d & Hd & Hl)]; rewrite <- Hs1 in *.
    { exfalso. apply Hne. exact Hn. }
    assert (Hmode : mode <> FindBuffer)
      by (intros ->; simpl in Hw; discriminate).
    unfold a in Hd, Hl.
    rewrite (clipboardData_copied mode d1 s Hmode) in Hd.
    injection Hd as <-. simpl in Hl.
    assert (Hf : m_formats (mon s1) = m_formats (mon s)).
    { destruct (checkClipboard_cases mode a) as [(_ & _ & x & Hx) | Hev];
        rewrite <- Hs1 in *.
      - rewrite Hx. destruct (mon s); reflexivity.
      - destruct Hev as (s0 & Hs0 & _ & _ & (x & Hx) & _).
        rewrite Hs0. unfold evaluate. branch; simpl; rewrite ?Hx;
          destruct (mon s); reflexivity. }
    split; [exact Hl|].
    rewrite Hs2. apply (checkClipboard_same_hash mode d2 b).
    - apply (clipboardData_copied mode d2 s1 Hmode).
    - simpl. rewrite Hl, Hf. apply Hhash, Hsame. }
  split; [|exact Hreported].
  destruct (checkClipboard_notifications mode a)
    as [Hn | (_ & item & Hn & _)]; rewrite <- Hs1 in *; simpl in Hn.
  - destruct (checkClipboard_notifications mode b)
      as [Hn2 | (_ & item & Hn2 & _)]; rewrite <- Hs2 in *; simpl in Hn2;
      rewrite Hn2, ?length_app, Hn; simpl; lia.
  - destruct Hreported as (_ & Ht & _).
    { rewrite Hn. intros Heq.
      apply (f_equal (@length _)) in Heq. rewrite length_app in Heq.
      simpl in Heq. lia. }
    rewrite Ht, Hn, length_app. simpl. lia.
Qed.
End Dedup.

(** C3, counterexample: on the X11 build, with the clipboard not watched
    but mirrored, a change of the clipboard updates the fingerprint and
    writes the selection. *)
Lemma unwatched_mirrored_change_is_evaluated :
  let H := Model.deps true in
  let s := run [SocketReadyRead [Complete (Model.settings "fcM")] [];
                HostChange (copied Clipboard Model.text_a)] (init Model.quiet) in
  let s' := dispatch (ClipboardChanged Clipboard []) s in
  watch_flag Clipboard (mon s) = false
  /\ mirror_flag Clipboard (mon s) = true
  /\ m_lastHash (mon s) = 0
  /\ m_lastHash (mon s') <> 0
  /\ writes (trace s') = [(Model.text_a, Selection)].
Proof. vm_compute. repeat split; try reflexivity. discriminate. Qed.

(** C5, witness: the clipboard is watched for "text/plain"; a text with
    an image, then the text alone. *)
Lemma dedup_second_change_ignored_witness :
  let H := Model.deps true in
  let s := run [SocketReadyRead [Complete (Model.settings "fC")] []]
               (init Model.quiet) in
  let d1 := (Model.text_a ++ Model.image)%list in
  let s1 := onExternalChange Clipboard d1 s in
  let s2 := onExternalChange Clipboard Model.text_a s1 in
  cloneData d1 (Some (m_formats (mon s)))
  = cloneData Model.text_a (Some (m_formats (mon s)))
  /\ notifications (trace s1) <> notifications (trace s)
  /\ trace s2 = trace s1.
Proof.
  intros H s d1 s1 s2.
  assert (Hhash : forall c1 c2 fs, cloneData c1 (Some fs) = cloneData c2 (Some fs) ->
                                   hash c1 fs = hash c2 fs).
  { intros c1 c2 fs Hc. simpl in *. rewrite Hc. reflexivity. }
  assert (Hsame : cloneData d1 (Some (m_formats (mon s)))
                  = cloneData Model.text_a (Some (m_formats (mon s))))
    by (vm_compute; reflexivity).
  assert (Hne : notifications (trace s1) <> notifications (trace s))
    by (vm_compute; discriminate).
  pose proof (@dedup_second_change_ignored H Clipboard d1 Model.text_a s
                Hhash Hsame) as (_ & W).
  split; [exact Hsame|]. split; [exact Hne|]. apply W. exact Hne.
Defined.

(** C5, counterexample: the clipboard is watched for "text/plain" and an
    image is stored twice; nothing of it is accepted, and neither change
    sends a notification. *)
Lemma unaccepted_change_sends_nothing :
  let H := Model.deps false in
  let s := run [SocketReadyRead [Complete (Model.settings "fC")] []]
               (init Model.quiet) in
  let s2 := onExternalChange Clipboard Model.image
              (onExternalChange Clipboard Model.image s) in
  watch_flag Clipboard (mon s) = true
  /\ m_formats (mon s) = ["text/plain"]
  /\ notifications (trace s2) = []
  /\ length (notifications (trace s2)) <> 1%nat.
Proof. vm_compute. repeat split; try reflexivity. discriminate. Qed.

(** ** Relations that every handler respects

    A reflexive and transitive relation between the state before and the
    state after, once it is respected by the steps the handlers are made
    of, is respected by every event and every run. *)
Section Preservation.
Context `{ClientServer}.
Variable R : Sys -> Sys -> Prop.
Hypothesis R_refl : forall s, R s s.
Hypothesis R_trans : forall s1 s2 s3, R s1 s2 -> R s2 s3 -> R s1 s3.
Hypothesis R_guard : forall s, R s (snd (waitForKeyRelease s)).
Hypothesis R_evaluate : forall mode s, R s (evaluate mode s).
Hypothesis R_timeout :
  forall s, isActive (m_updateTimer (mon s)) = true ->
            R s (updateTimeout
                   (upd (fun m => set_updateTimer (expire (m_updateTimer m)) m) s)).
Hypothesis R_expire :
  forall s, R s (upd (fun m => set_x11 (mkX11 (m_dsp (m_x11 m))
                                              (expire (m_timer (m_x11 m)))) m) s).
Hypothesis R_read :
  forall pe, (forall s, R s (pe s)) ->
             forall buffered s, signalsBlocked (m_socket (mon s)) = false ->
                                R s (fst (readyRead pe buffered s)).
Hypothesis R_host : forall f s, R s (mkSys (mon s) (f (host s)) (trace s)).

Lemma checkClipboard_respects (pe : Sys -> Sys) :
  (forall s, R s (pe s)) -> forall mode s, R s (checkClipboard pe mode s).
Proof.
  intros Hpe mode s. unfold checkClipboard, updateSelection_with.
  pose proof (R_guard s) as Hg.
  destruct (waitForKeyRelease s) as [waiting s1]; simpl in Hg.
  branch; subst; simpl; auto.
  all: try (injection Heqp as <- <-); auto.
  all: eapply R_trans; [exact Hg|]; eapply R_trans; [apply Hpe|]; apply R_evaluate.
Qed.

Lemma updateSelection_respects (pe : Sys -> Sys) :
  (forall s, R s (pe s)) -> forall check s, R s (snd (updateSelection pe check s)).
Proof.
  intros Hpe check s. unfold updateSelection, updateSelection_with.
  pose proof (R_guard s) as Hg.
  destruct (waitForKeyRelease s) as [waiting s1]; simpl in Hg.
  branch; simpl; auto.
  eapply R_trans; [exact Hg|]. apply checkClipboard_respects, Hpe.
Qed.

Lemma fold_respects (l : list Event) :
  Forall (fun e => forall s, R s (dispatch e s)) l ->
  forall s, R s (fold_left (fun a e => dispatch e a) l s).
Proof.
  induction 1 as [|e l He _ IH]; intros s; simpl; [apply R_refl|].
  eapply R_trans; [apply He | apply IH].
Qed.

Lemma dispatch_respects (e : Event) : forall s, R s (dispatch e s).
Proof.
  induction e as [mode pending IH| |pending IH|buffered pending IH|f]
    using Event_nested_ind; intros s; simpl.
  - apply checkClipboard_respects. intros s0. apply fold_respects, IH.
  - destruct (isActive _) eqn:Ha; [apply R_timeout, Ha | apply R_refl].
  - destruct (_ && _); [|apply R_refl].
    eapply R_trans; [apply R_expire|].
    apply updateSelection_respects. intros s0. apply fold_respects, IH.
  - destruct (signalsBlocked _) eqn:Hb; [apply R_refl|].
    apply R_read; [|exact Hb]. intros s0. apply fold_respects, IH.
  - apply R_host.
Qed.

Lemma run_respects (events : list Event) : forall s, R s (run events s).
Proof.
  intros s. apply fold_respects, Forall_forall. intros e _. apply dispatch_respects.
Qed.

(** The drain of the socket respects the relation when the steps of its
    loop do. *)
Lemma readyRead_respects (pe : Sys -> Sys) :
  (forall st s, R s (applySettings st s)) ->
  (forall d s, R s (updateClipboard d false s)) ->
  (forall b s, R s (blockSignals b s)) ->
  (forall msg s, R s (log msg s)) ->
  (forall s, R s (pe s)) ->
  forall buffered s, R s (fst (readyRead pe buffered s)).
Proof.
  intros Hset Hpush Hblock Hlog Hpe buffered s. unfold readyRead.
  eapply R_trans; [apply (Hblock true)|].
  generalize (blockSignals true s). clear s.
  induction buffered as [|[item|] rest IH]; intros s; simpl.
  - apply Hblock.
  - eapply R_trans; [|apply IH]. unfold handleItem.
    destruct (negb _); [|apply Hpush].
    eapply R_trans; [apply Hset|].
    destruct Q_WS_X11.
    + eapply R_trans; apply checkClipboard_respects, Hpe.
    + apply checkClipboard_respects, Hpe.
  - apply Hlog.
Qed.
End Preservation.

(** ** Invariants of a run *)

Section Invariants.
Context `{ClientServer}.

Lemma waitForKeyRelease_mon (s : Sys) :
  let s' := snd (waitForKeyRelease s) in
  mon s' = set_x11 (m_x11 (mon s')) (mon s)
  /\ timer_setup s' = timer_setup s.
Proof.
  unfold waitForKeyRelease, timer_setup. branch; simpl; split;
    destruct (mon s); reflexivity.
Qed.

Lemma evaluate_mon (mode : Mode) (s : Sys) :
  mon (evaluate mode s) = set_lastHash (m_lastHash (mon (evaluate mode s))) (mon s).
Proof.
  unfold evaluate. branch; simpl; destruct (mon s); reflexivity.
Qed.

Lemma applySettings_frame (st : gmap string QVariant) (s : Sys) :
  let s' := applySettings st s in
  trace s' = trace s /\ host s' = host s
  /\ m_newdata (mon s') = m_newdata (mon s)
  /\ m_updateTimer (mon s') = m_updateTimer (mon s)
  /\ m_x11 (mon s') = m_x11 (mon s)
  /\ m_socket (mon s') = m_socket (mon s).
Proof.
  unfold applySettings. branch; simpl; repeat split; reflexivity.
Qed.

(** No handler changes how the timers are set up. *)
Lemma run_timer_setup (events : list Event) (s : Sys) :
  timer_setup (run events s) = timer_setup s.
Proof.
  apply (run_respects (fun a b => timer_setup b = timer_setup a)); clear.
  - reflexivity.
  - intros s1 s2 s3 H12 H23. congruence.
  - intros s. apply waitForKeyRelease_mon.
  - intros mode s. unfold timer_setup. rewrite evaluate_mon. reflexivity.
  - intros s _. unfold updateTimeout, updateClipboard, timer_setup.
    branch; reflexivity.
  - intros s. reflexivity.
  - intros pe Hpe buffered s _.
    apply (readyRead_respects (fun a b => timer_setup b = timer_setup a));
      clear - Hpe; auto.
    + intros s1 s2 s3 H12 H23. congruence.
    + intros s. apply waitForKeyRelease_mon.
    + intros mode s. unfold timer_setup. rewrite evaluate_mon. reflexivity.
    + intros st s. unfold timer_setup.
      destruct (applySettings_frame st s) as (_ & _ & _ & -> & -> & _).
      reflexivity.
    + intros d s. unfold updateClipboard, timer_setup. branch; reflexivity.
  - intros f s. reflexivity.
Qed.

(** Every handler keeps the invariant of the pending push. *)
Lemma run_pending_inv (events : list Event) (s : Sys) :
  pending_inv s -> pending_inv (run events s).
Proof.
  apply (run_respects (fun a b => pending_inv a -> pending_inv b)); clear.
  - auto.
  - auto.
  - intros s. unfold pending_inv.
    destruct (waitForKeyRelease_mon s) as (-> & _). auto.
  - intros mode s. unfold pending_inv. rewrite evaluate_mon. auto.
  - intros s _ _. unfold updateTimeout, updateClipboard, pending_inv.
    branch; simpl in *; congruence.
  - intros s. unfold pending_inv. auto.
  - intros pe Hpe buffered s _.
    apply (readyRead_respects (fun a b => pending_inv a -> pending_inv b));
      clear - Hpe; auto.
    + intros s. unfold pending_inv.
      destruct (waitForKeyRelease_mon s) as (-> & _). auto.
    + intros mode s. unfold pending_inv. rewrite evaluate_mon. auto.
    + intros st s. unfold pending_inv.
      destruct (applySettings_frame st s) as (_ & _ & -> & -> & _). auto.
    + intros d s _. unfold updateClipboard, pending_inv.
      branch; simpl in *; congruence.
  - intros f s. unfold pending_inv. auto.
Qed.

(** While the signals of the socket are blocked, no event changes the
    configuration or unblocks them. *)
Lemma run_blocked_config (events : list Event) (s : Sys) :
  signalsBlocked (m_socket (mon s)) = true ->
  config (run events s) = config s
  /\ signalsBlocked (m_socket (mon (run events s))) = true.
Proof.
  apply (run_respects
           (fun a b => signalsBlocked (m_socket (mon a)) = true ->
                       config b = config a
                       /\ signalsBlocked (m_socket (mon b)) = true)); clear.
  - auto.
  - intros s1 s2 s3 H12 H23 Hb. destruct (H12 Hb) as (Hc & Hb2).
    destruct (H23 Hb2) as (Hc3 & Hb3). split; congruence.
  - intros s Hb. unfold config.
    destruct (waitForKeyRelease_mon s) as (-> & _). auto.
  - intros mode s Hb. unfold config. rewrite evaluate_mon. auto.
  - intros s _ Hb. unfold updateTimeout, updateClipboard, config.
    branch; simpl in *; auto.
  - intros s Hb. unfold config. auto.
  - intros pe _ buffered s Hopen Hb. congruence.
  - intros f s Hb. unfold config. auto.
Qed.
End Invariants.

(** ** The guard of the selection *)

Section SelectionGuard.
Context `{ClientServer}.

(** The answer of the guard, from the state it is asked in. *)
Lemma waitForKeyRelease_answer (s : Sys) :
  fst (waitForKeyRelease s) = guard_answer s.
Proof.
  unfold waitForKeyRelease, guard_answer, held.
  destruct (isActive (m_timer (m_x11 (mon s)))); [reflexivity|].
  destruct (m_dsp (m_x11 (mon s))), (x_display (host s)); simpl;
    try reflexivity;
    destruct (Z.land (x_pointer (host s)) (Z.lor Button1Mask ShiftMask) =? 0)%Z;
    reflexivity.
Qed.

(** C6, as amended.  On the X11 build, in any state the monitor can
    reach.  The guard [waitForKeyRelease] answers yes exactly when its
    timer is running, or a display is at hand and button 1 or shift is
    held.  A change of the selection whose handler gets a yes from the
    guard when it asks, on entry, is not evaluated (no effect, host and
    fingerprint untouched, whatever is pending) and, when the buffer is
    watched or mirrored and not owned, the guard's timer is left running
    with its interval of 100.  When that timer expires the guard is asked
    again: if it still answers yes, again nothing is evaluated and the
    timer runs anew; once it answers no, [checkClipboard] is called for
    the selection. *)
Theorem selection_deferred_while_forming (s : Sys) (pending : list Event) :
  Q_WS_X11 = true -> reachable s ->
  fst (waitForKeyRelease s) = guard_answer s
  /\ (fst (waitForKeyRelease s) = true ->
   let s' := dispatch (ClipboardChanged Selection pending) s in
   trace s' = trace s /\ host s' = host s
   /\ m_lastHash (mon s') = m_lastHash (mon s)
   /\ ((watch_flag Selection (mon s) || mirror_flag Selection (mon s))
       && negb (ownsSelection s) = true ->
       isActive (m_timer (m_x11 (mon s'))) = true
       /\ interval (m_timer (m_x11 (mon s'))) = 100))
  /\ (isActive (m_timer (m_x11 (mon s))) = true ->
      let expired :=
        upd (fun m => set_x11 (mkX11 (m_dsp (m_x11 m))
                                     (expire (m_timer (m_x11 m)))) m) s in
      let s' := dispatch (SelectionTimerTimeout pending) s in
      isActive (m_timer (m_x11 (mon expired))) = false
      /\ (fst (waitForKeyRelease expired) = true ->
          held (host s) = true
          /\ trace s' = trace s /\ host s' = host s
          /\ m_lastHash (mon s') = m_lastHash (mon s)
          /\ isActive (m_timer (m_x11 (mon s'))) = true
          /\ interval (m_timer (m_x11 (mon s'))) = 100)
      /\ (fst (waitForKeyRelease expired) = false ->
          s' = checkClipboard (run pending) Selection
                              (snd (waitForKeyRelease expired)))).
Proof.
  intros HX (w & events & ->).
  pose proof (run_timer_setup events (init w)) as Hsetup.
  set (s := run events (init w)) in *.
  assert (Hint : singleShot (m_timer (m_x11 (mon s))) = true
                 /\ interval (m_timer (m_x11 (mon s))) = 100).
  { unfold timer_setup in Hsetup. simpl in Hsetup.
    injection Hsetup as _ _ Hs Hi. auto. }
  destruct Hint as (Hshot & Hint).
  split; [apply waitForKeyRelease_answer|].
  split.
  - intros Hwait. simpl. unfold checkClipboard. rewrite HX.
    destruct (waitForKeyRelease_frame s) as (Ht & Hh & x & Hx).
    destruct (waitForKeyRelease_arms s Hwait) as (Harm & Hiv).
    unfold updateSelection_with. rewrite HX.
    destruct (waitForKeyRelease s) as [waiting s1]; simpl in *. subst waiting.
    destruct (_ || ownsSelection s) eqn:Hg; simpl.
    + do 3 (split; [reflexivity|]).
      intros Hc. exfalso. apply andb_true_iff in Hc as [Hf Ho].
      apply orb_true_iff in Hg as [Hg | Hg].
      * destruct (m_checksel (mon s)), (m_copysel (mon s)); discriminate.
      * rewrite Hg in Ho. discriminate.
    + do 2 (split; [assumption|]). split.
      * rewrite Hx. destruct (mon s); reflexivity.
      * intros _. split; [exact Harm | congruence].
  - intros Hact expired. cbv zeta.
    assert (Hoff : isActive (m_timer (m_x11 (mon expired))) = false)
      by (simpl; rewrite Hshot; reflexivity).
    split; [exact Hoff|].
    assert (Hstep : dispatch (SelectionTimerTimeout pending) s
                    = snd (updateSelection (run pending) true expired)).
    { simpl. rewrite HX, Hact. reflexivity. }
    rewrite Hstep. unfold updateSelection, updateSelection_with. rewrite HX.
    destruct (waitForKeyRelease_frame expired) as (Ht & Hh & x & Hx).
    split.
    + intros Hwait.
      destruct (waitForKeyRelease_arms expired Hwait) as (Harm & Hiv).
      assert (Hheld : held (host s) = true).
      { revert Hwait. unfold waitForKeyRelease. rewrite Hoff.
        unfold held. change (host expired) with (host s).
        branch; simpl; congruence. }
      destruct (waitForKeyRelease expired) as [waiting s1]; simpl in *.
      subst waiting. simpl. split; [exact Hheld|].
      do 2 (split; [assumption|]). split.
      * rewrite Hx. destruct (mon s); reflexivity.
      * split; [exact Harm|]. rewrite Hiv. exact Hint.
    + intros Hwait.
      destruct (waitForKeyRelease expired) as [waiting s1]; simpl in *.
      subst waiting. reflexivity.
Qed.
End SelectionGuard.

(** C6, witness: button 1 is held while the selection is watched and
    another application stores a text in it. *)
Lemma selection_deferred_while_forming_witness :
  let H := Model.deps true in
  let w := mkWorld None None false false true Button1Mask in
  let s := run [SocketReadyRead [Complete (Model.settings "fS")] [];
                HostChange (copied Selection Model.text_a)] (init w) in
  let s' := dispatch (ClipboardChanged Selection []) s in
  fst (waitForKeyRelease s) = true
  /\ trace s' = trace s
  /\ m_lastHash (mon s') = m_lastHash (mon s)
  /\ isActive (m_timer (m_x11 (mon s'))) = true.
Proof.
  intros H w s s'.
  assert (Hr : reachable s) by (eexists; eexists; reflexivity).
  assert (Hw : fst (waitForKeyRelease s) = true) by reflexivity.
  pose proof (@selection_deferred_while_forming H s [] eq_refl Hr) as (_ & W & _).
  destruct (W Hw) as (Wt & _ & Wl & Wa).
  split; [exact Hw|]. split; [exact Wt|]. split; [exact Wl|].
  apply Wa. reflexivity.
Defined.

(** C6, counterexample: the selection is watched and holds the text "a";
    its change is announced with nothing held, so the guard answers no.
    While the handler lets the pending events run, button 1 is pressed
    and the text "b" is being selected, which is announced and put off
    by the guard.  The first handler then reads the selection and sends
    "b", with the button held and the guard answering yes. *)
Lemma selection_sent_while_button_held :
  let H := Model.deps true in
  let s := run [SocketReadyRead [Complete (Model.settings "fS")] [];
                HostChange (copied Selection Model.text_a)] (init Model.quiet) in
  let s' := dispatch (ClipboardChanged Selection
                        [HostChange (selecting Model.text_b);
                         ClipboardChanged Selection []]) s in
  notifications (trace s) = []
  /\ notifications (trace s') = [Model.text_b]
  /\ held (host s') = true
  /\ fst (waitForKeyRelease s') = true.
Proof. vm_compute. repeat split; reflexivity. Qed.

(** ** Messages from the server *)

Section Channel.
Context `{ClientServer}.

(** What [applySettings] leaves in the configuration: for every key, the
    value sent when the key is present (the three keys of the X11 build
    are read on that build only), the value held before otherwise. *)
Lemma applySettings_config (st : gmap string QVariant) (s : Sys) :
  config (applySettings st s)
  = (match st !! "formats" with
     | Some v => split (toString v) | None => m_formats (mon s) end,
     (match st !! "check_clipboard" with
      | Some v => toBool v | None => m_checkclip (mon s) end,
      match st !! "copy_clipboard" with
      | Some v => if Q_WS_X11 then toBool v else m_copyclip (mon s)
      | None => m_copyclip (mon s) end),
     (match st !! "check_selection" with
      | Some v => if Q_WS_X11 then toBool v else m_checksel (mon s)
      | None => m_checksel (mon s) end,
      match st !! "copy_selection" with
      | Some v => if Q_WS_X11 then toBool v else m_copysel (mon s)
      | None => m_copysel (mon s) end)).
Proof.
  unfold applySettings, config. branch; reflexivity.
Qed.

(** C2.  A frame that cannot be read to its end is logged and ends the
    drain with nothing else done, but [readyRead] returns with the
    signals of the socket still blocked: whatever the socket announces
    afterwards is not delivered, and the state stays as it is. *)
Theorem truncated_frame_blocks_later_reads
        (rest later : list Frame) (pending pending' : list Event) (s : Sys) :
  signalsBlocked (m_socket (mon s)) = false ->
  let s1 := dispatch (SocketReadyRead (Truncated :: rest) pending) s in
  trace s1 = (trace s ++ [Log "Cannot read message from server!"])%list
  /\ host s1 = host s
  /\ signalsBlocked (m_socket (mon s1)) = true
  /\ dispatch (SocketReadyRead later pending') s1 = s1.
Proof.
  intros Hopen. simpl. rewrite Hopen. simpl.
  repeat split; reflexivity.
Qed.

(** C9.  In every state of a run the slot of the pending push is filled
    only while the debounce timer is running; when the timer expires the
    handler leaves the slot empty; every push that is applied leaves it
    empty; and a timer that expires with the slot empty has no effect on
    trace or host. *)
Theorem pending_push_only_while_timer_runs (w : World) (events : list Event) :
  let s := run events (init w) in
  pending_inv s
  /\ m_newdata (mon (dispatch UpdateTimerTimeout s)) = None
  /\ (forall d force,
         negb force && isActive (m_updateTimer (mon s)) = false ->
         m_newdata (mon (updateClipboard d force s)) = None)
  /\ (m_newdata (mon s) = None ->
      trace (dispatch UpdateTimerTimeout s) = trace s
      /\ host (dispatch UpdateTimerTimeout s) = host s).
Proof.
  intros s.
  assert (Hinv : pending_inv s).
  { apply run_pending_inv. intros Hne. exfalso. apply Hne. reflexivity. }
  split; [exact Hinv|]. split; [|split].
  - simpl. destruct (isActive (m_updateTimer (mon s))) eqn:Ha.
    + unfold updateTimeout. simpl.
      destruct (m_newdata (mon s)) as [d|] eqn:Hn; [|exact Hn].
      apply (updateClipboard_applied d true). reflexivity.
    + destruct (m_newdata (mon s)) as [d|] eqn:Hn; [|reflexivity].
      unfold pending_inv in Hinv. rewrite Hn, Ha in Hinv.
      exfalso. assert (false = true) by (apply Hinv; discriminate). discriminate.
  - intros d force Hgate. apply (updateClipboard_applied d force s Hgate).
  - intros Hn. simpl. destruct (isActive (m_updateTimer (mon s))); [|auto].
    unfold updateTimeout. simpl. rewrite Hn. auto.
Qed.

(** C10.  A push that is applied records the fingerprint of the pushed
    data over the data's own list of formats.  The primary buffer then
    holds the pushed data, and the accepted formats are as before; so
    when the fingerprint over the accepted formats is another number, the
    fingerprint recorded is not the one an observation of that buffer
    computes. *)
Theorem push_fingerprint_over_own_formats (d : QMimeData) (force : bool) (s : Sys) :
  negb force && isActive (m_updateTimer (mon s)) = false ->
  let s' := updateClipboard d force s in
  m_lastHash (mon s') = hash d (formats d)
  /\ clipboardData Clipboard s' = Some d
  /\ m_formats (mon s') = m_formats (mon s)
  /\ (hash d (formats d) <> hash d (m_formats (mon s)) ->
      m_lastHash (mon s') <> hash d (m_formats (mon s'))).
Proof.
  intros Hgate s'.
  destruct (updateClipboard_applied d force s Hgate)
    as (_ & Hh & _ & _ & Hclip & Hf).
  fold s' in Hh, Hclip, Hf.
  do 3 (split; [assumption|]).
  intros Hne. rewrite Hh, Hf. exact Hne.
Qed.
End Channel.

(** C2, witness: from the initial state, a truncated frame, then a text
    pushed by the server; the push is not delivered to [readyRead]. *)
Lemma truncated_frame_blocks_later_reads_witness :
  let H := Model.deps false in
  let s := init Model.quiet in
  let s1 := dispatch (SocketReadyRead [Truncated] []) s in
  signalsBlocked (m_socket (mon s)) = false
  /\ signalsBlocked (m_socket (mon s1)) = true
  /\ dispatch (SocketReadyRead [Complete Model.text_a] []) s1 = s1.
Proof.
  intros H s s1.
  pose proof (@truncated_frame_blocks_later_reads H [] [Complete Model.text_a]
                [] [] s eq_refl) as (_ & _ & Wb & Wd).
  split; [reflexivity|]. split; [exact Wb | exact Wd].
Defined.

(** C9, witness: two pushes in a row; the second one waits in the slot
    while the timer runs, and the slot is empty after the timer. *)
Lemma pending_push_only_while_timer_runs_witness :
  let H := Model.deps true in
  let s := run [SocketReadyRead [Complete Model.text_a] [];
                SocketReadyRead [Complete Model.text_b] []] (init Model.quiet) in
  m_newdata (mon s) = Some Model.text_b
  /\ isActive (m_updateTimer (mon s)) = true
  /\ m_newdata (mon (dispatch UpdateTimerTimeout s)) = None.
Proof.
  intros H s.
  pose proof (@pending_push_only_while_timer_runs H Model.quiet
                [SocketReadyRead [Complete Model.text_a] [];
                 SocketReadyRead [Complete Model.text_b] []])
    as (Winv & Wempty & _).
  split; [reflexivity|]. split; [|exact Wempty].
  apply Winv. discriminate.
Defined.

(** C10, witness: "text/plain" is the accepted format and the server
    pushes a text with an image; the fingerprint recorded is not the one
    an observation of the buffer computes. *)
Lemma push_fingerprint_over_own_formats_witness :
  let H := Model.deps false in
  let s := run [SocketReadyRead [Complete (Model.settings "f")] []]
               (init Model.quiet) in
  let d := (Model.text_a ++ Model.image)%list in
  let s' := updateClipboard d false s in
  hash d (formats d) <> hash d (m_formats (mon s))
  /\ clipboardData Clipboard s' = Some d
  /\ m_lastHash (mon s') <> hash d (m_formats (mon s')).
Proof.
  intros H s d s'.
  assert (Hne : hash d (formats d) <> hash d (m_formats (mon s)))
    by (vm_compute; discriminate).
  pose proof (@push_fingerprint_over_own_formats H d false s eq_refl)
    as (_ & Wc & _ & W).
  split; [exact Hne|]. split; [exact Wc | exact (W Hne)].
Defined.

(** ** The list of accepted formats *)

Lemma sep_free_rev_app (s1 s2 : string) :
  sep_free (String.rev_app s1 s2) = sep_free s1 && sep_free s2.
Proof.
  revert s2. induction s1 as [|c s1 IH]; intros s2; simpl; [reflexivity|].
  rewrite IH. simpl. destruct (is_separator c), (sep_free s1); reflexivity.
Qed.

Lemma rev_app_rev_app (s a b : string) :
  String.rev_app (String.rev_app s a) b = String.rev_app a (s +:+ b).
Proof.
  revert a b. induction s as [|c s IH]; intros a b; simpl; [reflexivity|].
  rewrite IH. reflexivity.
Qed.

Lemma append_empty (s : string) : s +:+ "" = s.
Proof.
  induction s as [|a t IHt]; [reflexivity|].
  change (String a t +:+ "") with (String a (t +:+ "")). rewrite IHt. reflexivity.
Qed.

Lemma rev_rev_app (c : ascii) (p : string) :
  String.rev (String.rev_app p (String c "")) = String c p.
Proof.
  unfold String.rev.
  change (String.rev_app p (String c "")) with (String.rev_app (String c p) "").
  rewrite rev_app_rev_app. simpl. rewrite append_empty. reflexivity.
Qed.

Lemma split_go_pieces (s cur : string) (in_sep : bool) :
  sep_free cur = true -> Forall (fun p => sep_free p = true) (split_go s cur in_sep).
Proof.
  revert cur in_sep. induction s as [|c s IH]; intros cur in_sep Hcur; simpl.
  - constructor; [|constructor]. unfold String.rev.
    rewrite sep_free_rev_app, Hcur. reflexivity.
  - destruct (is_separator c) eqn:Hc.
    + destruct in_sep; [apply IH, Hcur|].
      constructor; [|apply IH; reflexivity].
      unfold String.rev. rewrite sep_free_rev_app, Hcur. reflexivity.
    + apply IH. simpl. rewrite Hc, Hcur. reflexivity.
Qed.

(** Reading a name that holds no separator pushes it onto the piece. *)
Lemma split_go_name (p rest cur : string) (in_sep : bool) :
  sep_free p = true ->
  split_go (p +:+ rest) cur in_sep
  = split_go rest (String.rev_app p cur)
             (match p with EmptyString => in_sep | _ => false end).
Proof.
  revert cur in_sep. induction p as [|c p IH]; intros cur in_sep Hp;
    [reflexivity|].
  simpl in Hp. apply andb_true_iff in Hp as [Hc Hp].
  apply negb_true_iff in Hc.
  change (String c p +:+ rest) with (String c (p +:+ rest)).
  simpl. rewrite Hc, (IH (String c cur) false Hp).
  destruct p; reflexivity.
Qed.

Lemma plain_sep_free (s : string) : plain s = true -> sep_free s = true.
Proof.
  induction s as [|c s IH]; simpl; [reflexivity|]. intros Hp.
  repeat (apply andb_true_iff in Hp as [Hp ?]).
  rewrite IH by assumption. rewrite andb_true_r.
  unfold is_separator. cbv zeta.
  apply negb_true_iff. apply negb_true_iff in H1, H0.
  rewrite H1, H0. simpl.
  apply N.leb_le in Hp. apply N.leb_le in H2.
  destruct (N.eqb_spec (N_of_ascii c) 32); [lia|].
  destruct (N.eqb_spec (N_of_ascii c) 160); [lia|].
  replace (N_of_ascii c <=? 13) with false by (symmetry; apply N.leb_gt; lia).
  rewrite andb_false_r. reflexivity.
Qed.

Lemma split_go_join (sep : ascii) (l : list string) (p : string) :
  is_separator sep = true ->
  Forall format_name (p :: l) ->
  forall in_sep, split_go (join sep (p :: l)) "" in_sep = p :: l.
Proof.
  intros Hsep. revert p. induction l as [|q l IH]; intros p Hall in_sep.
  - apply Forall_cons in Hall as [[Hne Hp] _]. apply plain_sep_free in Hp. simpl.
    pose proof (split_go_name p "" "" in_sep Hp) as Hgo.
    destruct p as [|c p]; [congruence|].
    rewrite append_empty in Hgo. rewrite Hgo. simpl.
    rewrite rev_rev_app. reflexivity.
  - apply Forall_cons in Hall as [[Hne Hp] Hl]. apply plain_sep_free in Hp.
    change (join sep (p :: q :: l)) with (p +:+ String sep (join sep (q :: l))).
    pose proof (split_go_name p (String sep (join sep (q :: l))) "" in_sep Hp) as Hgo.
    destruct p as [|c p]; [congruence|].
    rewrite Hgo. pose proof (IH q Hl true) as Hrest.
    simpl split_go at 1. rewrite Hsep.
    simpl in Hrest. rewrite Hrest, rev_rev_app. reflexivity.
Qed.

Section Formats.

(** X1.  Whatever text [setFormats] is given, the list of accepted
    formats it stores is not empty and none of its entries holds a
    separator (a semicolon, a comma or white space). *)
Theorem setFormats_entries (text : string) (s : Sys) :
  m_formats (mon (setFormats text s)) <> []
  /\ Forall (fun p => sep_free p = true) (m_formats (mon (setFormats text s))).
Proof.
  simpl. split.
  - unfold split. generalize "" at 1. generalize false.
    induction text as [|c text IH]; intros b cur; simpl; [discriminate|].
    destruct (is_separator c); [destruct b|]; try apply IH. discriminate.
  - apply split_go_pieces. reflexivity.
Qed.

(** X2.  A list of format names (not empty, of printable ASCII
    characters other than the semicolon and the comma) written with one
    separator between two names is read back by [setFormats] as that
    list, name by name and in order. *)
Theorem setFormats_join (sep : ascii) (l : list string) (s : Sys) :
  is_separator sep = true -> l <> [] -> Forall format_name l ->
  m_formats (mon (setFormats (join sep l) s)) = l.
Proof.
  intros Hsep Hne Hall. simpl. unfold split.
  destruct l as [|p l]; [congruence|].
  apply split_go_join; assumption.
Qed.
End Formats.

(** X2, witness: three MIME types, separated by commas. *)
Lemma setFormats_join_witness :
  m_formats (mon (setFormats "text/plain,image/png,text/html" (init Model.quiet)))
  = ["text/plain"; "image/png"; "text/html"].
Proof.
  apply (setFormats_join ","%char ["text/plain"; "image/png"; "text/html"]
           (init Model.quiet)).
  - reflexivity.
  - discriminate.
  - repeat constructor; discriminate.
Defined.

(** ** One observation of a buffer *)

Section ObservationOutcome.
Context `{ClientServer}.

(** A buffer this process owns is not looked at. *)
Lemma checkClipboard_owned (pe : Sys -> Sys) (mode : Mode) (s : Sys) :
  owned mode (host s) = true -> checkClipboard pe mode s = s.
Proof.
  intros Ho. unfold checkClipboard, ownsClipboard, ownsSelection.
  destruct Q_WS_X11, mode; simpl in *; rewrite ?Ho, ?orb_true_r;
    try reflexivity; discriminate.
Qed.

(** Data that are accepted and new: what the evaluation leaves. *)
Lemma evaluate_accepted (mode : Mode) (d : QMimeData) (s : Sys) :
  clipboardData mode s = Some d ->
  m_lastHash (mon s) <> hash d (m_formats (mon s)) ->
  formats (cloneData d (Some (m_formats (mon s)))) <> [] ->
  let s' := evaluate mode s in
  let item := reported d (m_formats (mon s)) in
  mon s' = set_lastHash (hash d (m_formats (mon s))) (mon s)
  /\ trace s'
     = (trace s
        ++ (if negb Q_WS_X11 || watch_flag mode (mon s)
            then [WriteMessage item] else [])
        ++ (if Q_WS_X11 && mirror_flag mode (mon s)
            then [SetClipboardData item (opposite mode)] else []))%list
  /\ (Q_WS_X11 && mirror_flag mode (mon s) = true ->
      owned (opposite mode) (host s') = true)
  /\ (Q_WS_X11 && mirror_flag mode (mon s) = false -> host s' = host s).
Proof.
  intros Hd Hnew Hacc. unfold evaluate, reported. rewrite Hd.
  apply N.eqb_neq in Hnew. rewrite Hnew.
  destruct (formats (cloneData d (Some (m_formats (mon s))))) eqn:Hf;
    [congruence|]. simpl isEmpty. cbv iota.
  destruct Q_WS_X11.
  - destruct mode; simpl in Hd; try discriminate; simpl;
      [destruct (m_checkclip (mon s)); simpl; destruct (m_copyclip (mon s))
      |destruct (m_checksel (mon s)); simpl; destruct (m_copysel (mon s))];
      simpl; rewrite <- ?app_assoc, ?app_nil_r; simpl;
      repeat split; try reflexivity; try discriminate.
  - simpl. repeat split; try reflexivity; discriminate.
Qed.

(** Data that cannot be read, or hold nothing that is accepted: the
    evaluation logs the first case, and does nothing else. *)
Lemma evaluate_rejected (mode : Mode) (s : Sys) :
  clipboardData mode s = None
  \/ (exists d, clipboardData mode s = Some d
                /\ formats (cloneData d (Some (m_formats (mon s)))) = []) ->
  let s' := evaluate mode s in
  mon s' = mon s /\ host s' = host s
  /\ notifications (trace s') = notifications (trace s)
  /\ writes (trace s') = writes (trace s).
Proof.
  intros [Hd | (d & Hd & He)]; unfold evaluate; rewrite Hd.
  - simpl. rewrite notifications_app, writes_app. simpl.
    rewrite !app_nil_r. repeat split; reflexivity.
  - rewrite He. simpl. destruct (_ =? _); repeat split; reflexivity.
Qed.

(** X3.  A change of a buffer whose data cannot be read, or hold nothing
    in an accepted format, is dropped: the last-seen fingerprint stays,
    nothing is sent to the server and no buffer is written. *)
Theorem observation_rejected (mode : Mode) (s : Sys) :
  clipboardData mode s = None
  \/ (exists d, clipboardData mode s = Some d
                /\ formats (cloneData d (Some (m_formats (mon s)))) = []) ->
  let s' := dispatch (ClipboardChanged mode []) s in
  m_lastHash (mon s') = m_lastHash (mon s)
  /\ host s' = host s
  /\ notifications (trace s') = notifications (trace s)
  /\ writes (trace s') = writes (trace s).
Proof.
  intros Hrej.
  change (dispatch (ClipboardChanged mode []) s)
    with (checkClipboard (fun s0 => s0) mode s). cbv zeta.
  destruct (checkClipboard_cases mode s) as [(Ht & Hh & x & Hx) | Hev].
  { rewrite Ht, Hh, Hx. destruct (mon s); repeat split; reflexivity. }
  destruct Hev as (s1 & -> & Ht & Hh & (x & Hx) & _).
  destruct (evaluate_rejected mode s1) as (Hm & Hh' & Hn & Hw).
  { rewrite (clipboardData_host mode s1 s Hh).
    replace (m_formats (mon s1)) with (m_formats (mon s))
      by (rewrite Hx; destruct (mon s); reflexivity).
    exact Hrej. }
  rewrite Hm, Hh', Hn, Hw, Hx, Ht, Hh. destruct (mon s); repeat split; reflexivity.
Qed.

(** X4.  One change of a buffer, with nothing pending, sends at most one
    notification.  When it sends one, the buffer was not owned by this
    process, its data were new to the last-seen fingerprint and held an
    accepted format; the notification carries the accepted part of the
    data, and the fingerprint of the data over the accepted formats is
    the last-seen one afterwards. *)
Theorem observation_report (mode : Mode) (s : Sys) :
  let s' := dispatch (ClipboardChanged mode []) s in
  let fs := m_formats (mon s) in
  notifications (trace s') = notifications (trace s)
  \/ exists d,
      clipboardData mode s = Some d
      /\ owned mode (host s) = false
      /\ m_lastHash (mon s) <> hash d fs
      /\ formats (cloneData d (Some fs)) <> []
      /\ notifications (trace s') = (notifications (trace s) ++ [reported d fs])%list
      /\ m_lastHash (mon s') = hash d fs.
Proof.
  change (dispatch (ClipboardChanged mode []) s)
    with (checkClipboard (fun s0 => s0) mode s). cbv zeta.
  destruct (owned mode (host s)) eqn:Ho.
  { left. rewrite (checkClipboard_owned _ mode s Ho). reflexivity. }
  destruct (checkClipboard_cases mode s) as [(Ht & _) | Hev].
  { left. rewrite Ht. reflexivity. }
  destruct Hev as (s1 & -> & Ht & Hh & (x & Hx) & HX1 & HX0).
  assert (Hf : m_formats (mon s1) = m_formats (mon s))
    by (rewrite Hx; destruct (mon s); reflexivity).
  assert (Hl : m_lastHash (mon s1) = m_lastHash (mon s))
    by (rewrite Hx; destruct (mon s); reflexivity).
  destruct (clipboardData mode s) as [d|] eqn:Hd.
  2: { left. destruct (evaluate_rejected mode s1) as (_ & _ & Hn & _).
       - left. rewrite (clipboardData_host mode s1 s Hh). exact Hd.
       - rewrite Hn, Ht. reflexivity. }
  rewrite <- (clipboardData_host mode s1 s Hh) in Hd.
  destruct (formats (cloneData d (Some (m_formats (mon s))))) as [|f fs'] eqn:He.
  { left. destruct (evaluate_rejected mode s1) as (_ & _ & Hn & _).
    - right. exists d. rewrite Hf. auto.
    - rewrite Hn, Ht. reflexivity. }
  destruct (N.eq_dec (m_lastHash (mon s)) (hash d (m_formats (mon s)))) as [Heq | Hne].
  { left. rewrite (evaluate_same_hash mode d s1 Hd), Ht; [reflexivity|].
    rewrite Hl, Hf. exact Heq. }
  destruct (evaluate_accepted mode d s1 Hd) as (Hm & Htr & _).
  { rewrite Hl, Hf. exact Hne. }
  { rewrite Hf, He. discriminate. }
  rewrite Hf in Hm, Htr.
  assert (Hw : watch_flag mode (mon s1) = watch_flag mode (mon s))
    by (rewrite Hx; apply watch_flag_set_x11).
  rewrite Hw in Htr.
  destruct (negb Q_WS_X11 || watch_flag mode (mon s)) eqn:Hnote.
  - right. exists d.
    split; [reflexivity|].
    split; [reflexivity|]. split; [exact Hne|].
    split; [rewrite He; discriminate|]. split.
    + rewrite Htr, !notifications_app, Ht. simpl.
      destruct (Q_WS_X11 && _); simpl; rewrite ?app_nil_r; reflexivity.
    + rewrite Hm. reflexivity.
  - left. rewrite Htr, !notifications_app, Ht. simpl.
    destruct (Q_WS_X11 && _); simpl; rewrite ?app_nil_r; reflexivity.
Qed.

(** X5.  When a change of a buffer makes the monitor write a buffer, it
    is the X11 build with the mirror flag of the changed buffer on; one
    copy of the accepted data is written, to the opposite buffer; and the
    change of that buffer which the write causes is not looked at, so the
    copy is not mirrored back. *)
Theorem mirror_write_not_echoed (mode : Mode) (s : Sys) :
  let s' := dispatch (ClipboardChanged mode []) s in
  writes (trace s') <> writes (trace s) ->
  Q_WS_X11 = true /\ mirror_flag mode (mon s) = true
  /\ (exists d, clipboardData mode s = Some d
                /\ writes (trace s')
                   = (writes (trace s)
                      ++ [(reported d (m_formats (mon s)), opposite mode)])%list)
  /\ forall pending, dispatch (ClipboardChanged (opposite mode) pending) s' = s'.
Proof.
  change (dispatch (ClipboardChanged mode []) s)
    with (checkClipboard (fun s0 => s0) mode s). cbv zeta. intros Hwr.
  destruct (checkClipboard_cases mode s) as [(Ht & _) | Hev].
  { exfalso. apply Hwr. rewrite Ht. reflexivity. }
  destruct Hev as (s1 & Hs' & Ht & Hh & (x & Hx) & _).
  rewrite Hs' in *.
  assert (Hf : m_formats (mon s1) = m_formats (mon s))
    by (rewrite Hx; destruct (mon s); reflexivity).
  assert (Hl : m_lastHash (mon s1) = m_lastHash (mon s))
    by (rewrite Hx; destruct (mon s); reflexivity).
  assert (Hmf : mirror_flag mode (mon s1) = mirror_flag mode (mon s))
    by (rewrite Hx; destruct mode; reflexivity).
  destruct (clipboardData mode s1) as [d|] eqn:Hd.
  2: { exfalso. apply Hwr. destruct (evaluate_rejected mode s1) as (_ & _ & _ & Hw).
       - left. exact Hd.
       - rewrite Hw, Ht. reflexivity. }
  destruct (formats (cloneData d (Some (m_formats (mon s1))))) as [|f fs'] eqn:He.
  { exfalso. apply Hwr. destruct (evaluate_rejected mode s1) as (_ & _ & _ & Hw).
    - right. exists d. auto.
    - rewrite Hw, Ht. reflexivity. }
  destruct (N.eq_dec (m_lastHash (mon s1)) (hash d (m_formats (mon s1)))) as [Heq | Hne].
  { exfalso. apply Hwr. rewrite (evaluate_same_hash mode d s1 Hd Heq), Ht.
    reflexivity. }
  destruct (evaluate_accepted mode d s1 Hd Hne) as (_ & Htr & Hown & _).
  { rewrite He. discriminate. }
  rewrite Hmf, Hf in *.
  destruct (Q_WS_X11 && mirror_flag mode (mon s)) eqn:Hm.
  2: { exfalso. apply Hwr. rewrite Htr, !writes_app, Ht.
       destruct (negb Q_WS_X11 || _); simpl; rewrite ?app_nil_r; reflexivity. }
  apply andb_true_iff in Hm as [HX Hm].
  split; [exact HX|]. split; [exact Hm|]. split.
  - exists d. rewrite (clipboardData_host mode s1 s Hh) in Hd. split; [exact Hd|].
    rewrite Htr, !writes_app, Ht.
    destruct (negb Q_WS_X11 || _); simpl; reflexivity.
  - intros pending. simpl. apply checkClipboard_owned. apply Hown. reflexivity.
Qed.
End ObservationOutcome.

(** X3, witness: the clipboard is watched for "text/plain" and cannot be
    read. *)
Lemma observation_rejected_witness :
  let H := Model.deps true in
  let s := run [SocketReadyRead [Complete (Model.settings "fC")] []]
               (init Model.quiet) in
  let s' := dispatch (ClipboardChanged Clipboard []) s in
  clipboardData Clipboard s = None
  /\ m_lastHash (mon s') = m_lastHash (mon s)
  /\ notifications (trace s') = notifications (trace s).
Proof.
  intros H s s'.
  pose proof (@observation_rejected H Clipboard s (or_introl eq_refl))
    as (Wl & _ & Wn & _).
  split; [reflexivity|]. split; [exact Wl | exact Wn].
Defined.

(** X5, witness: the clipboard is mirrored, and another application
    stores a text in it. *)
Lemma mirror_write_not_echoed_witness :
  let H := Model.deps true in
  let s := run [SocketReadyRead [Complete (Model.settings "fCMSN")] [];
                HostChange (copied Clipboard Model.text_a)] (init Model.quiet) in
  let s' := dispatch (ClipboardChanged Clipboard []) s in
  writes (trace s') <> writes (trace s)
  /\ dispatch (ClipboardChanged Selection []) s' = s'.
Proof.
  intros H s s'.
  assert (Hw : writes (trace s') <> writes (trace s)) by (vm_compute; discriminate).
  pose proof (@mirror_write_not_echoed H Clipboard s Hw) as (_ & _ & _ & W).
  split; [exact Hw | apply W].
Defined.

(** ** Pushes, again *)

Section PushEcho.
Context `{ClientServer}.

(** X6.  After a push was applied, the changes of the buffers that the
    monitor wrote are not looked at: whichever buffer is announced as
    changed, with whatever pending, the state stays as it is. *)
Theorem push_echo_ignored (d : QMimeData) (force : bool) (s : Sys) :
  negb force && isActive (m_updateTimer (mon s)) = false ->
  forall mode pending,
    dispatch (ClipboardChanged mode pending) (updateClipboard d force s)
    = updateClipboard d force s.
Proof.
  intros Hgate mode pending. simpl.
  destruct (decide (mode = Clipboard)) as [-> | Hmode].
  - apply checkClipboard_owned. unfold updateClipboard. simpl. rewrite Hgate.
    destruct Q_WS_X11; reflexivity.
  - destruct Q_WS_X11 eqn:HX.
    + destruct mode; [congruence| |unfold checkClipboard; rewrite HX; reflexivity].
      apply checkClipboard_owned. unfold updateClipboard. simpl.
      rewrite Hgate, HX. reflexivity.
    + unfold checkClipboard. rewrite HX.
      destruct mode; [congruence|reflexivity|reflexivity].
Qed.

Lemma pushes_deferred (l : list QMimeData) (s : Sys) :
  isActive (m_updateTimer (mon s)) = true ->
  pushes l s = match last l with
               | Some d => upd (set_newdata (Some d)) s
               | None => s
               end.
Proof.
  revert s. induction l as [|d l IH]; intros s Hact; [reflexivity|].
  unfold pushes in *. simpl fold_left.
  rewrite (updateClipboard_deferred d s Hact), IH by exact Hact.
  rewrite last_cons. destruct (last l); reflexivity.
Qed.

(** X7.  Any number of pushes that arrive while the debounce timer runs
    write nothing and leave fingerprint and host alone; the last of them
    is the pending push, the earlier ones are gone.  When the timer then
    expires that last push, and nothing else, is applied. *)
Theorem burst_coalesced (l : list QMimeData) (d : QMimeData) (s : Sys) :
  isActive (m_updateTimer (mon s)) = true ->
  last l = Some d ->
  let s' := pushes l s in
  let s'' := dispatch UpdateTimerTimeout s' in
  trace s' = trace s /\ host s' = host s
  /\ m_lastHash (mon s') = m_lastHash (mon s)
  /\ m_newdata (mon s') = Some d
  /\ trace s'' = (trace s ++ apply_effects d)%list
  /\ clip_data (host s'') = Some d
  /\ m_newdata (mon s'') = None.
Proof.
  intros Hact Hlast s' s''.
  assert (Hs' : s' = upd (set_newdata (Some d)) s).
  { unfold s'. rewrite (pushes_deferred l s Hact), Hlast. reflexivity. }
  assert (Hs'' : s'' = updateClipboard d true
                         (upd (fun m => set_updateTimer (expire (m_updateTimer m)) m) s')).
  { unfold s''. rewrite Hs'. simpl. rewrite Hact. reflexivity. }
  destruct (updateClipboard_applied d true
              (upd (fun m => set_updateTimer (expire (m_updateTimer m)) m) s'))
    as (Ht & _ & Hn & _ & Hc & _); [reflexivity|].
  rewrite <- Hs'' in Ht, Hn, Hc.
  rewrite Hs' in *. repeat split; assumption.
Qed.

(** X8.  On the build without X11 only the clipboard is dealt with: a
    change of another buffer and the expiry of the selection timer leave
    the state as it is, a change of the clipboard writes no buffer, and
    every buffer write of a run is a write of the clipboard. *)
Theorem no_x11_clipboard_only :
  Q_WS_X11 = false ->
  (forall mode pending s,
      mode <> Clipboard -> dispatch (ClipboardChanged mode pending) s = s)
  /\ (forall pending s, dispatch (SelectionTimerTimeout pending) s = s)
  /\ (forall mode pending s,
         writes (trace (dispatch (ClipboardChanged mode pending) s))
         = writes (trace s))
  /\ (forall w events,
         Forall (fun wr => wr.2 = Clipboard)
                (writes (trace (run events (init w))))).
Proof.
  intros HX.
  assert (Heval : forall mode s, writes (trace (evaluate mode s)) = writes (trace s)).
  { intros mode s. unfold evaluate. rewrite HX.
    branch; simpl; rewrite ?writes_app; simpl; rewrite ?app_nil_r; reflexivity. }
  assert (Hpush : forall d force s,
             Forall (fun wr => wr.2 = Clipboard) (writes (trace s)) ->
             Forall (fun wr => wr.2 = Clipboard)
                    (writes (trace (updateClipboard d force s)))).
  { intros d force s Hall. unfold updateClipboard. rewrite HX.
    branch; simpl; [exact Hall|]. rewrite writes_app. simpl.
    apply Forall_app. split; [exact Hall|]. repeat constructor. }
  split; [|split; [|split]].
  - intros mode pending s Hmode. simpl. unfold checkClipboard. rewrite HX.
    destruct mode; [congruence|reflexivity|reflexivity].
  - intros pending s. simpl. rewrite HX. reflexivity.
  - intros mode pending s. simpl. unfold checkClipboard. rewrite HX.
    destruct (_ || _); [reflexivity | apply Heval].
  - intros w events.
    apply (run_respects
             (fun a b => Forall (fun wr => wr.2 = Clipboard) (writes (trace a)) ->
                         Forall (fun wr => wr.2 = Clipboard) (writes (trace b))));
      try (simpl; constructor); clear w events.
    + auto.
    + auto.
    + intros s. destruct (waitForKeyRelease_frame s) as (-> & _). auto.
    + intros mode s. rewrite Heval. auto.
    + intros s _ Hall. unfold updateTimeout. simpl.
      destruct (m_newdata (mon s)); [|exact Hall]. apply Hpush. exact Hall.
    + auto.
    + intros pe Hpe buffered s _.
      apply (readyRead_respects
               (fun a b => Forall (fun wr => wr.2 = Clipboard) (writes (trace a)) ->
                           Forall (fun wr => wr.2 = Clipboard) (writes (trace b))));
        auto.
      * intros s0. destruct (waitForKeyRelease_frame s0) as (-> & _). auto.
      * intros mode s0. rewrite Heval. auto.
      * intros st s0. destruct (applySettings_frame st s0) as (-> & _). auto.
      * intros msg s0. unfold log. simpl. rewrite writes_app. simpl.
        rewrite app_nil_r. auto.
    + auto.
Qed.

(** X9.  In every state of a run both timers are set up as the
    constructors leave them: single shot, the debounce timer with an
    interval of 500 and the timer of the selection guard with one of
    100. *)
Theorem timers_as_constructed (s : Sys) :
  reachable s ->
  singleShot (m_updateTimer (mon s)) = true
  /\ interval (m_updateTimer (mon s)) = 500
  /\ singleShot (m_timer (m_x11 (mon s))) = true
  /\ interval (m_timer (m_x11 (mon s))) = 100.
Proof.
  intros (w & events & ->).
  pose proof (run_timer_setup events (init w)) as Hsetup.
  unfold timer_setup in Hsetup. simpl in Hsetup.
  injection Hsetup as H1 H2 H3 H4. auto.
Qed.
End PushEcho.

(** X6, witness: a text pushed to the initial state of the X11 build. *)
Lemma push_echo_ignored_witness :
  let H := Model.deps true in
  let s' := updateClipboard Model.text_a false (init Model.quiet) in
  run [ClipboardChanged Clipboard []; ClipboardChanged Selection []] s' = s'.
Proof.
  intros H s'.
  pose proof (@push_echo_ignored H Model.text_a false (init Model.quiet) eq_refl)
    as W.
  change (dispatch (ClipboardChanged Selection [])
                   (dispatch (ClipboardChanged Clipboard []) s') = s').
  unfold s'. rewrite (W Clipboard []). exact (W Selection []).
Defined.

(** X7, witness: a first push starts the timer; three more arrive before
    it expires. *)
Lemma burst_coalesced_witness :
  let H := Model.deps false in
  let s := updateClipboard Model.image false (init Model.quiet) in
  let s' := pushes [Model.text_a; Model.image; Model.text_b] s in
  isActive (m_updateTimer (mon s)) = true
  /\ trace s' = trace s
  /\ m_newdata (mon s') = Some Model.text_b
  /\ clip_data (host (dispatch UpdateTimerTimeout s')) = Some Model.text_b.
Proof.
  intros H s s'.
  pose proof (@burst_coalesced H [Model.text_a; Model.image; Model.text_b]
                Model.text_b s eq_refl eq_refl) as (Wt & _ & _ & Wn & _ & Wc & _).
  split; [reflexivity|]. split; [exact Wt|]. split; [exact Wn | exact Wc].
Defined.

(** X8, witness: on the build without X11, with the selection said to be
    watched and mirrored, a change of the selection is not looked at. *)
Lemma no_x11_clipboard_only_witness :
  let H := Model.deps false in
  let s := run [SocketReadyRead [Complete (Model.settings "fCMSN")] [];
                HostChange (copied Selection Model.text_a)] (init Model.quiet) in
  dispatch (ClipboardChanged Selection []) s = s.
Proof.
  intros H s.
  pose proof (@no_x11_clipboard_only H eq_refl) as (W & _).
  apply W. discriminate.
Defined.

(** X9, witness: the state after a push and the expiry of the debounce
    timer. *)
Lemma timers_as_constructed_witness :
  let H := Model.deps true in
  let s := run [SocketReadyRead [Complete Model.text_a] []; UpdateTimerTimeout]
               (init Model.quiet) in
  interval (m_updateTimer (mon s)) = 500
  /\ interval (m_timer (m_x11 (mon s))) = 100.
Proof.
  intros H s.
  assert (Hr : reachable s) by (eexists; eexists; reflexivity).
  pose proof (@timers_as_constructed H s Hr) as (_ & W1 & _ & W2).
  split; [exact W1 | exact W2].
Defined.

(** ** The guard without a display *)

Section Drain.
Context `{ClientServer}.

(** X11.  The guard fails open: on the X11 build, when its timer is not
    running and no display can be opened, [waitForKeyRelease] answers no
    and changes nothing, whatever buttons are held; a change of a
    selection that is watched or mirrored and not owned is then evaluated
    at once, after the pending events. *)
Theorem guard_fails_open (pe : Sys -> Sys) (s : Sys) :
  Q_WS_X11 = true ->
  isActive (m_timer (m_x11 (mon s))) = false ->
  m_dsp (m_x11 (mon s)) = false ->
  x_display (host s) = false ->
  waitForKeyRelease s = (false, s)
  /\ (watch_flag Selection (mon s) || mirror_flag Selection (mon s) = true ->
      ownsSelection s = false ->
      checkClipboard pe Selection s = evaluate Selection (pe s)).
Proof.
  intros HX Hact Hdsp Hdisp.
  assert (Hw : waitForKeyRelease s = (false, s)).
  { unfold waitForKeyRelease. rewrite Hact, Hdsp, Hdisp. reflexivity. }
  split; [exact Hw|].
  intros Hflag Hown. unfold checkClipboard, updateSelection_with.
  rewrite HX, Hw, Hown. simpl in Hflag.
  destruct (m_checksel (mon s)), (m_copysel (mon s)); try discriminate; reflexivity.
Qed.
End Drain.

(** X11, witness: button 1 is held, but there is no display to ask. *)
Lemma guard_fails_open_witness :
  let H := Model.deps true in
  let w := mkWorld None None false false false Button1Mask in
  let s := run [SocketReadyRead [Complete (Model.settings "fS")] [];
                HostChange (copied Selection Model.text_a)] (init w) in
  held (host s) = true
  /\ notifications (trace (dispatch (ClipboardChanged Selection []) s))
     = [Model.text_a].
Proof.
  intros H w s.
  pose proof (@guard_fails_open H (fun s0 => s0) s eq_refl eq_refl eq_refl eq_refl)
    as (_ & W).
  split; [reflexivity|].
  change (dispatch (ClipboardChanged Selection []) s)
    with (checkClipboard (fun s0 => s0) Selection s).
  rewrite (W eq_refl eq_refl). reflexivity.
Defined.

(** ** Settings take effect at once *)

Section SettingsEffect.
Context `{ClientServer}.

Lemma applySettings_lastHash (st : gmap string QVariant) (s : Sys) :
  m_lastHash (mon (applySettings st s))
  = match st !! "_last_hash" with
    | Some v => if m_lastHash (mon s) =? 0 then toUInt v else m_lastHash (mon s)
    | None => m_lastHash (mon s)
    end.
Proof. unfold applySettings. branch; reflexivity. Qed.

(** A settings message drained while the selection is of no interest:
    what is left is the look at the clipboard. *)
Lemma dispatch_settings_clipboard
      (item : QMimeData) (pending : list Event) (s : Sys) :
  signalsBlocked (m_socket (mon s)) = false ->
  data item "application/x-copyq-settings" <> "" ->
  let st := decodeSettings (data item "application/x-copyq-settings") in
  let s1 := applySettings st (blockSignals true s) in
  Q_WS_X11 = false
  \/ watch_flag Selection (mon s1) || mirror_flag Selection (mon s1) = false ->
  dispatch (SocketReadyRead [Complete item] pending) s
  = blockSignals false (checkClipboard (fun s0 => s0) Clipboard s1).
Proof.
  intros Hopen Hpay st s1 Hsel. simpl. rewrite Hopen.
  unfold readyRead. simpl. unfold handleItem.
  destruct (data item "application/x-copyq-settings") as [|c payload] eqn:Hd;
    [congruence|]. simpl. fold st. fold s1.
  assert (Hclip : forall pe a, checkClipboard pe Clipboard a
                               = checkClipboard (fun s0 => s0) Clipboard a).
  { intros pe a. unfold checkClipboard. destruct Q_WS_X11; reflexivity. }
  destruct Q_WS_X11 eqn:HX.
  - destruct Hsel as [Hsel | Hsel]; [discriminate|].
    assert (Hs : forall pe, checkClipboard pe Selection s1 = s1).
    { intros pe. unfold checkClipboard. rewrite HX. simpl in Hsel.
      apply orb_false_iff in Hsel as [-> ->]. reflexivity. }
    rewrite Hs, Hclip. reflexivity.
  - rewrite Hclip. reflexivity.
Qed.

(** X12.  A settings message whose [_last_hash] is the fingerprint of
    what the clipboard holds, received while the last-seen fingerprint is
    still 0 and the selection is neither watched nor mirrored: the
    fingerprint is taken over, and the look at the clipboard that follows
    the settings has no effect; the content is not reported again. *)
Theorem bootstrap_suppresses_report
        (item : QMimeData) (pending : list Event) (s : Sys)
        (v : QVariant) (d : QMimeData) :
  signalsBlocked (m_socket (mon s)) = false ->
  data item "application/x-copyq-settings" <> "" ->
  let st := decodeSettings (data item "application/x-copyq-settings") in
  let s1 := applySettings st (blockSignals true s) in
  Q_WS_X11 = false
  \/ watch_flag Selection (mon s1) || mirror_flag Selection (mon s1) = false ->
  st !! "_last_hash" = Some v ->
  m_lastHash (mon s) = 0 ->
  clip_data (host s) = Some d ->
  hash d (m_formats (mon s1)) = toUInt v ->
  let s' := dispatch (SocketReadyRead [Complete item] pending) s in
  trace s' = trace s /\ host s' = host s /\ m_lastHash (mon s') = toUInt v.
Proof.
  intros Hopen Hpay st s1 Hsel Hkey Hzero Hclip Hhash s'.
  unfold s'. rewrite (dispatch_settings_clipboard item pending s Hopen Hpay Hsel).
  fold st s1.
  destruct (applySettings_frame st (blockSignals true s)) as (Ht & Hh & _).
  fold s1 in Ht, Hh.
  assert (Hl : m_lastHash (mon s1) = toUInt v).
  { unfold s1. rewrite applySettings_lastHash, Hkey. simpl. rewrite Hzero.
    reflexivity. }
  assert (Hd : clipboardData Clipboard s1 = Some d).
  { unfold clipboardData. rewrite Hh. exact Hclip. }
  destruct (checkClipboard_same_hash Clipboard d s1 Hd) as (Ht' & Hl').
  { rewrite Hl, Hhash. reflexivity. }
  simpl. rewrite Ht', Hl', Hl, Ht. split; [reflexivity|]. split; [|reflexivity].
  destruct (checkClipboard_cases Clipboard s1) as [(_ & Hh1 & _) | Hev].
  - rewrite Hh1. exact Hh.
  - destruct Hev as (s2 & Hs2 & _ & Hh2 & (x & Hx) & _).
    rewrite Hs2, (evaluate_same_hash Clipboard d s2), Hh2; [exact Hh| |].
    + rewrite (clipboardData_host Clipboard s2 s1 Hh2). exact Hd.
    + rewrite Hx. destruct (mon s1); simpl in *. rewrite Hl, Hhash. reflexivity.
Qed.

(** X13.  A settings message that leaves the clipboard watched, drained
    while the clipboard holds data of another application that are new
    to the fingerprint and have an accepted format, and while the
    selection is neither watched nor mirrored: the data are reported in
    the same drain, without any change of the clipboard being
    announced. *)
Theorem settings_report_at_once
        (item : QMimeData) (pending : list Event) (s : Sys) (d : QMimeData) :
  signalsBlocked (m_socket (mon s)) = false ->
  data item "application/x-copyq-settings" <> "" ->
  let st := decodeSettings (data item "application/x-copyq-settings") in
  let s1 := applySettings st (blockSignals true s) in
  let fs := m_formats (mon s1) in
  Q_WS_X11 = false
  \/ watch_flag Selection (mon s1) || mirror_flag Selection (mon s1) = false ->
  watch_flag Clipboard (mon s1) = true ->
  clip_data (host s) = Some d -> clip_owned (host s) = false ->
  m_lastHash (mon s1) <> hash d fs ->
  formats (cloneData d (Some fs)) <> [] ->
  let s' := dispatch (SocketReadyRead [Complete item] pending) s in
  notifications (trace s') = (notifications (trace s) ++ [reported d fs])%list
  /\ m_lastHash (mon s') = hash d fs.
Proof.
  intros Hopen Hpay st s1 fs Hsel Hwatch Hclip Hfree Hnew Hacc s'.
  unfold s'. rewrite (dispatch_settings_clipboard item pending s Hopen Hpay Hsel).
  fold st s1.
  destruct (applySettings_frame st (blockSignals true s)) as (Ht & Hh & _).
  fold s1 in Ht, Hh.
  assert (Hd : clipboardData Clipboard s1 = Some d).
  { unfold clipboardData. rewrite Hh. exact Hclip. }
  assert (Hgo : checkClipboard (fun s0 => s0) Clipboard s1 = evaluate Clipboard s1).
  { unfold checkClipboard, ownsClipboard. rewrite Hh. simpl. rewrite Hfree.
    simpl in Hwatch. rewrite Hwatch. destruct Q_WS_X11; reflexivity. }
  rewrite Hgo.
  destruct (evaluate_accepted Clipboard d s1 Hd Hnew Hacc) as (Hm & Htr & _).
  simpl. rewrite Htr, Hm, !notifications_app, Ht. fold fs.
  rewrite Hwatch, orb_true_r. simpl.
  destruct (Q_WS_X11 && _); simpl; rewrite ?app_nil_r; split; reflexivity.
Qed.

(** X14.  No notification that is sent is empty: in every run, every
    item written to the socket has at least one format (on the X11 build
    provided the plain clone of data with a format has one). *)
Theorem notifications_not_empty (w : World) (events : list Event) :
  (Q_WS_X11 = true ->
   forall d, formats d <> [] -> formats (cloneData d None) <> []) ->
  Forall (fun item => formats item <> [])
         (notifications (trace (run events (init w)))).
Proof.
  intros Hclone.
  set (R := fun a b : Sys =>
              Forall (fun item => formats item <> []) (notifications (trace a)) ->
              Forall (fun item => formats item <> []) (notifications (trace b))).
  assert (Heval : forall mode s, R s (evaluate mode s)).
  { intros mode s Hall.
    destruct (clipboardData mode s) as [d|] eqn:Hd.
    2: { destruct (evaluate_rejected mode s (or_introl Hd)) as (_ & _ & -> & _).
         exact Hall. }
    destruct (formats (cloneData d (Some (m_formats (mon s))))) as [|f fs] eqn:He.
    { destruct (evaluate_rejected mode s) as (_ & _ & -> & _); [|exact Hall].
      right. exists d. auto. }
    destruct (N.eq_dec (m_lastHash (mon s)) (hash d (m_formats (mon s))))
      as [Heq | Hne].
    { rewrite (evaluate_same_hash mode d s Hd Heq). exact Hall. }
    destruct (evaluate_accepted mode d s Hd Hne) as (_ & -> & _).
    { rewrite He. discriminate. }
    rewrite !notifications_app. apply Forall_app. split; [exact Hall|].
    apply Forall_app. split.
    - destruct (negb Q_WS_X11 || _); simpl; [|constructor].
      constructor; [|constructor]. unfold reported.
      destruct Q_WS_X11 eqn:HX.
      + apply Hclone; [reflexivity|]. rewrite He. discriminate.
      + rewrite He. discriminate.
    - destruct (Q_WS_X11 && _); simpl; constructor. }
  assert (Hpush : forall d force s, R s (updateClipboard d force s)).
  { intros d force s Hall. unfold updateClipboard.
    branch; simpl; rewrite ?notifications_app; simpl; rewrite ?app_nil_r;
      exact Hall. }
  apply (run_respects R); try (simpl; constructor); unfold R; clear w events.
  - auto.
  - auto.
  - intros s. destruct (waitForKeyRelease_frame s) as (-> & _). auto.
  - apply Heval.
  - intros s _ Hall. unfold updateTimeout. simpl.
    destruct (m_newdata (mon s)); [|exact Hall]. apply Hpush. exact Hall.
  - auto.
  - intros pe Hpe buffered s _. apply (readyRead_respects R); unfold R; auto.
    + intros s0. destruct (waitForKeyRelease_frame s0) as (-> & _). auto.
    + intros st s0. destruct (applySettings_frame st s0) as (-> & _). auto.
    + intros d s0. apply Hpush.
    + intros msg s0. unfold log. simpl. rewrite notifications_app. simpl.
      rewrite app_nil_r. auto.
  - auto.
Qed.
End SettingsEffect.

(** X12, witness: the monitor starts while the clipboard holds the text
    "a", and the server's first settings carry the fingerprint of that
    text. *)
Lemma bootstrap_suppresses_report_witness :
  let H := restart_deps true in
  let s := init (copied Clipboard Model.text_a Model.quiet) in
  let s' := dispatch (SocketReadyRead [Complete (Model.settings "fC")] []) s in
  watch_flag Clipboard (mon s') = true
  /\ trace s' = []
  /\ m_lastHash (mon s') = Model.fingerprint Model.text_a.
Proof.
  intros H s s'.
  assert (Hpay : data (Model.settings "fC") "application/x-copyq-settings" <> "")
    by (vm_compute; discriminate).
  pose proof (@bootstrap_suppresses_report H (Model.settings "fC") [] s
                (Model.VUInt (Model.fingerprint Model.text_a)) Model.text_a
                eq_refl Hpay (or_intror eq_refl) eq_refl eq_refl eq_refl eq_refl)
    as (Wt & _ & Wl).
  split; [reflexivity|]. split; [exact Wt | exact Wl].
Defined.

(** X13, witness: the same start with a server that sends no usable
    fingerprint; the text is reported when the settings arrive. *)
Lemma settings_report_at_once_witness :
  let H := Model.deps true in
  let s := init (copied Clipboard Model.text_a Model.quiet) in
  let s' := dispatch (SocketReadyRead [Complete (Model.settings "fC")] []) s in
  notifications (trace s') = [Model.text_a].
Proof.
  intros H s s'.
  assert (Hpay : data (Model.settings "fC") "application/x-copyq-settings" <> "")
    by (vm_compute; discriminate).
  assert (Hnew : m_lastHash (mon (applySettings
                                    (decodeSettings (data (Model.settings "fC")
                                                          "application/x-copyq-settings"))
                                    (blockSignals true s)))
                 <> hash Model.text_a ["text/plain"])
    by (vm_compute; discriminate).
  assert (Hacc : formats (cloneData Model.text_a (Some ["text/plain"])) <> [])
    by (vm_compute; discriminate).
  pose proof (@settings_report_at_once H (Model.settings "fC") [] s Model.text_a
                eq_refl Hpay (or_intror eq_refl) eq_refl eq_refl eq_refl Hnew Hacc)
    as (W & _).
  exact W.
Defined.

(** X14, witness: a run of the X11 build in which a text is reported. *)
Lemma notifications_not_empty_witness :
  let H := Model.deps true in
  Forall (fun item => formats item <> [])
         (notifications
            (trace (run [SocketReadyRead [Complete (Model.settings "fC")] [];
                         HostChange (copied Clipboard Model.text_a);
                         ClipboardChanged Clipboard []] (init Model.quiet)))).
Proof.
  intros H.
  apply (@notifications_not_empty H Model.quiet).
  intros _ d Hd. exact Hd.
Defined.

(** ** More invariants of a run *)

Section MoreInvariants.
Context `{ClientServer}.

(** X15.  On the build without X11 the flags for mirroring the clipboard
    and for watching and mirroring the selection are never set: whatever
    the settings messages of a run hold, the three are off, as the
    constructor left them. *)
Theorem no_x11_flags_stay_off (w : World) (events : list Event) :
  Q_WS_X11 = false ->
  x11_flags (run events (init w)) = (false, false, false).
Proof.
  intros HX.
  apply (run_respects (fun a b => x11_flags b = x11_flags a)); clear w events.
  - reflexivity.
  - intros s1 s2 s3 H12 H23. congruence.
  - intros s. unfold x11_flags.
    destruct (waitForKeyRelease_mon s) as (-> & _). reflexivity.
  - intros mode s. unfold x11_flags. rewrite evaluate_mon. reflexivity.
  - intros s _. unfold updateTimeout, updateClipboard, x11_flags.
    branch; reflexivity.
  - reflexivity.
  - intros pe Hpe buffered s _.
    apply (readyRead_respects (fun a b => x11_flags b = x11_flags a)); auto.
    + intros s1 s2 s3 H12 H23. congruence.
    + intros s0. unfold x11_flags.
      destruct (waitForKeyRelease_mon s0) as (-> & _). reflexivity.
    + intros mode s0. unfold x11_flags. rewrite evaluate_mon. reflexivity.
    + intros st s0. unfold applySettings, x11_flags. rewrite HX.
      branch; reflexivity.
    + intros d s0. unfold updateClipboard, x11_flags. branch; reflexivity.
  - reflexivity.
Qed.

Lemma readyRead_loop_complete (pe : Sys -> Sys) (buffered : list Frame) (s : Sys) :
  all_complete buffered = true ->
  signalsBlocked (m_socket (mon (fst (readyRead_loop pe buffered s)))) = false.
Proof.
  revert s. induction buffered as [|[item|] rest IH]; intros s Hall; simpl in *.
  - reflexivity.
  - apply IH, Hall.
  - discriminate.
Qed.

Lemma dispatch_intact (e : Event) :
  intact e = true ->
  forall s, signalsBlocked (m_socket (mon s)) = false ->
            signalsBlocked (m_socket (mon (dispatch e s))) = false.
Proof.
  set (R := fun a b : Sys => signalsBlocked (m_socket (mon a)) = false ->
                             signalsBlocked (m_socket (mon b)) = false).
  assert (Hg : forall s, R s (snd (waitForKeyRelease s))).
  { intros s. unfold R. destruct (waitForKeyRelease_mon s) as (-> & _). auto. }
  assert (He : forall mode s, R s (evaluate mode s)).
  { intros mode s. unfold R. rewrite evaluate_mon. auto. }
  assert (Hfold : forall pending,
             Forall (fun e => intact e = true -> forall s, R s (dispatch e s)) pending ->
             forallb intact pending = true ->
             forall s, R s (fold_left (fun a e' => dispatch e' a) pending s)).
  { induction 1 as [|e' l He' _ IH]; intros Hall s; simpl; [unfold R; auto|].
    simpl in Hall. apply andb_true_iff in Hall as [H1 H2].
    intros Hs. apply IH; [exact H2|]. apply He'; assumption. }
  induction e as [mode pending IH| |pending IH|buffered pending IH|f]
    using Event_nested_ind; intros Hin s; simpl in Hin |- *.
  - apply (checkClipboard_respects R); unfold R; auto.
    intros s0. apply Hfold; assumption.
  - intros Hs. unfold updateTimeout, updateClipboard.
    branch; simpl; exact Hs.
  - destruct (_ && _); [|auto].
    intros Hs. apply (updateSelection_respects R); unfold R; auto.
    intros s0. apply Hfold; assumption.
  - apply andb_true_iff in Hin as [Hall Hin].
    intros Hs. rewrite Hs. apply readyRead_loop_complete, Hall.
  - auto.
Qed.

(** X16.  As long as every frame that arrives can be read to its end,
    [readyRead] never leaves the signals of the socket blocked: after any
    run without a truncated frame, pending events included, the socket
    is listened to. *)
Theorem signals_stay_free (w : World) (events : list Event) :
  forallb intact events = true ->
  signalsBlocked (m_socket (mon (run events (init w)))) = false.
Proof.
  unfold run. assert (Hinit : signalsBlocked (m_socket (mon (init w))) = false)
    by reflexivity.
  revert Hinit. generalize (init w).
  induction events as [|e events IH]; intros s Hs Hall; simpl in *; [exact Hs|].
  apply andb_true_iff in Hall as [He Hall].
  apply IH; [|exact Hall]. apply dispatch_intact; assumption.
Qed.

(** X17.  A change of the selection that is put off is reported once the
    button is let go.  On the X11 build, from a state of a run where the
    guard's timer is not running: the selection is watched, not owned,
    holds data that are new and accepted, a display is there and button 1
    or shift is held.  The change is announced (nothing is sent), the
    buttons are let go, the guard's timer expires: then the accepted part
    of the data is sent, once, and its fingerprint is the last-seen
    one. *)
Theorem deferred_selection_reported (s : Sys) (d : QMimeData) :
  Q_WS_X11 = true -> reachable s ->
  isActive (m_timer (m_x11 (mon s))) = false ->
  x_display (host s) = true -> held (host s) = true ->
  m_checksel (mon s) = true -> sel_owned (host s) = false ->
  sel_data (host s) = Some d ->
  m_lastHash (mon s) <> hash d (m_formats (mon s)) ->
  formats (cloneData d (Some (m_formats (mon s)))) <> [] ->
  let s1 := dispatch (ClipboardChanged Selection []) s in
  let s3 := run [HostChange released; SelectionTimerTimeout []] s1 in
  trace s1 = trace s
  /\ isActive (m_timer (m_x11 (mon s1))) = true
  /\ notifications (trace s3)
     = (notifications (trace s) ++ [reported d (m_formats (mon s))])%list
  /\ m_lastHash (mon s3) = hash d (m_formats (mon s))
  /\ isActive (m_timer (m_x11 (mon s3))) = false.
Proof.
  intros HX Hr Hidle Hdisp Hheld Hwatch Hfree Hdata Hnew Hacc.
  assert (Hshot : singleShot (m_timer (m_x11 (mon s))) = true).
  { destruct Hr as (w & events & ->).
    pose proof (run_timer_setup events (init w)) as Hsetup.
    unfold timer_setup in Hsetup. simpl in Hsetup.
    injection Hsetup as _ _ Hs _. exact Hs. }
  set (x := m_x11 (mon s)) in *.
  assert (Hs1 : dispatch (ClipboardChanged Selection []) s
                = upd (set_x11 (mkX11 true (start (m_timer x)))) s).
  { simpl. unfold checkClipboard, updateSelection_with, waitForKeyRelease,
      ownsSelection. fold x.
    unfold held in Hheld.
    rewrite HX, Hwatch, Hfree, Hidle, Hdisp, Hheld, andb_false_r. reflexivity. }
  set (s'' := mkSys (set_x11 (mkX11 true (expire (start (m_timer x)))) (mon s))
                    (released (host s)) (trace s)).
  assert (Hoff : isActive (expire (start (m_timer x))) = false)
    by (simpl; rewrite Hshot; reflexivity).
  assert (Hs3 : run [HostChange released; SelectionTimerTimeout []]
                    (upd (set_x11 (mkX11 true (start (m_timer x)))) s)
                = evaluate Selection s'').
  { unfold run. simpl. rewrite HX. simpl.
    unfold updateSelection, updateSelection_with, waitForKeyRelease. simpl.
    rewrite HX, Hshot. simpl.
    unfold checkClipboard, updateSelection_with, waitForKeyRelease, ownsSelection.
    simpl. rewrite HX, Hwatch, Hfree, Hshot. simpl. reflexivity. }
  cbv zeta. rewrite Hs1, Hs3.
  destruct (evaluate_accepted Selection d s'') as (Hm & Htr & _).
  { exact Hdata. }
  { simpl. destruct (mon s); exact Hnew. }
  { simpl. destruct (mon s); exact Hacc. }
  assert (Hf : m_formats (mon s'') = m_formats (mon s))
    by (simpl; destruct (mon s); reflexivity).
  rewrite Hf in Hm, Htr.
  split; [reflexivity|]. split; [reflexivity|]. split; [|split].
  - rewrite Htr, !notifications_app.
    replace (watch_flag Selection (mon s'')) with true
      by (simpl; destruct (mon s); simpl in *; congruence).
    rewrite orb_true_r. simpl.
    destruct (Q_WS_X11 && _); simpl; rewrite ?app_nil_r; reflexivity.
  - rewrite Hm. reflexivity.
  - rewrite Hm. simpl. destruct (mon s); simpl in *. exact Hoff.
Qed.
End MoreInvariants.

(** X15, witness: the build without X11 is sent every flag switched
    on. *)
Lemma no_x11_flags_stay_off_witness :
  let H := Model.deps false in
  let s := run [SocketReadyRead [Complete (Model.settings "fCMSN")] []]
               (init Model.quiet) in
  m_checkclip (mon s) = true /\ x11_flags s = (false, false, false).
Proof.
  intros H s. split; [reflexivity|].
  apply (@no_x11_flags_stay_off H Model.quiet
           [SocketReadyRead [Complete (Model.settings "fCMSN")] []] eq_refl).
Defined.

(** X16, witness: settings, two pushes in one drain and a change of the
    clipboard while the selection is looked at. *)
Lemma signals_stay_free_witness :
  let H := Model.deps true in
  signalsBlocked
    (m_socket
       (mon (run [SocketReadyRead [Complete (Model.settings "fCS")] [];
                  SocketReadyRead [Complete Model.text_a; Complete Model.text_b] [];
                  ClipboardChanged Selection [ClipboardChanged Clipboard []]]
                 (init Model.quiet))))
  = false.
Proof.
  intros H.
  apply (@signals_stay_free H Model.quiet). reflexivity.
Defined.

(** X17, witness: a text is selected with button 1 held down, and the
    button is let go. *)
Lemma deferred_selection_reported_witness :
  let H := Model.deps true in
  let w := mkWorld None None false false true 0 in
  let s := run [SocketReadyRead [Complete (Model.settings "fS")] [];
                HostChange (fun w0 => mkWorld (clip_data w0) (Some Model.text_a)
                                              (clip_owned w0) false
                                              (x_display w0) Button1Mask)]
               (init w) in
  let s1 := dispatch (ClipboardChanged Selection []) s in
  let s3 := run [HostChange released; SelectionTimerTimeout []] s1 in
  held (host s) = true
  /\ notifications (trace s1) = []
  /\ notifications (trace s3) = [Model.text_a].
Proof.
  intros H w s s1 s3.
  assert (Hr : reachable s) by (eexists; eexists; reflexivity).
  assert (Hnew : m_lastHash (mon s) <> hash Model.text_a (m_formats (mon s)))
    by (vm_compute; discriminate).
  assert (Hacc : formats (cloneData Model.text_a (Some (m_formats (mon s)))) <> [])
    by (vm_compute; discriminate).
  pose proof (@deferred_selection_reported H s Model.text_a eq_refl Hr
                eq_refl eq_refl eq_refl eq_refl eq_refl eq_refl Hnew Hacc)
    as (Wt & _ & Wn & _).
  split; [reflexivity|]. split.
  - fold s1 in Wt. rewrite Wt. reflexivity.
  - exact Wn.
Defined.

(** ** A change of a buffer that is not watched *)

Section Unwatched.
Context `{ClientServer}.

(** The clipboard is looked at without [processEvents]. *)
Lemma checkClipboard_clipboard (pe : Sys -> Sys) (s : Sys) :
  checkClipboard pe Clipboard s = checkClipboard (fun s0 => s0) Clipboard s.
Proof. unfold checkClipboard. destruct Q_WS_X11; reflexivity. Qed.

(** On the X11 build, a buffer that is watched or mirrored and not owned
    is evaluated, the selection once the guard has answered no. *)
Lemma checkClipboard_evaluates (mode : Mode) (s : Sys) :
  Q_WS_X11 = true ->
  watch_flag mode (mon s) || mirror_flag mode (mon s) = true ->
  owned mode (host s) = false ->
  (mode = Selection -> fst (waitForKeyRelease s) = false) ->
  exists s1,
    checkClipboard (fun s0 => s0) mode s = evaluate mode s1
    /\ trace s1 = trace s /\ host s1 = host s
    /\ exists x, mon s1 = set_x11 x (mon s).
Proof.
  intros HX Hflag Hfree Hguard. unfold checkClipboard. rewrite HX.
  destruct mode; simpl in Hflag, Hfree.
  - unfold ownsClipboard. rewrite Hfree.
    destruct (m_checkclip (mon s)), (m_copyclip (mon s)); try discriminate;
      exists s; simpl; repeat split; try reflexivity;
      exists (m_x11 (mon s)); destruct (mon s); reflexivity.
  - unfold ownsSelection, updateSelection_with. rewrite Hfree, HX.
    pose proof (waitForKeyRelease_frame s) as (Ht & Hh & Hx).
    specialize (Hguard eq_refl).
    destruct (waitForKeyRelease s) as [waiting s1]. simpl in *. subst waiting.
    destruct (m_checksel (mon s)), (m_copysel (mon s)); try discriminate;
      exists s1; simpl; repeat split; assumption.
  - discriminate.
Qed.

(** C3, as amended.  A change of a buffer whose watch flag is off.
    Unless it is the X11 build with the mirror flag of the buffer on, the
    change is ignored altogether, whatever is pending: the state stays as
    it is.  Otherwise, for a change of the clipboard, and for a change of
    the selection observed with no event pending: nothing is sent to the
    server; when the buffer is not owned, the guard does not put the
    selection off, and the data can be read, are new to the last-seen
    fingerprint and have an accepted format, the fingerprint of the data
    is recorded and one copy of their accepted part is written to the
    opposite buffer; when the buffer is owned, or the guard puts the
    selection off, or the data cannot be read, are not new or have no
    accepted format, the fingerprint stays and no buffer is written. *)
Theorem external_change_unwatched (mode : Mode) (pending : list Event) (s : Sys) :
  watch_flag mode (mon s) = false ->
  let s' := dispatch (ClipboardChanged mode pending) s in
  let fs := m_formats (mon s) in
  (mirror_flag mode (mon s) = false \/ Q_WS_X11 = false -> s' = s)
  /\ (mode = Clipboard \/ pending = [] ->
      notifications (trace s') = notifications (trace s)
      /\ (forall d,
             Q_WS_X11 = true -> mirror_flag mode (mon s) = true ->
             owned mode (host s) = false ->
             (mode = Selection -> fst (waitForKeyRelease s) = false) ->
             clipboardData mode s = Some d ->
             m_lastHash (mon s) <> hash d fs ->
             formats (cloneData d (Some fs)) <> [] ->
             m_lastHash (mon s') = hash d fs
             /\ writes (trace s')
                = (writes (trace s) ++ [(reported d fs, opposite mode)])%list)
      /\ (owned mode (host s) = true
          \/ (mode = Selection /\ fst (waitForKeyRelease s) = true)
          \/ clipboardData mode s = None
          \/ (exists d, clipboardData mode s = Some d
                        /\ (m_lastHash (mon s) = hash d fs
                            \/ formats (cloneData d (Some fs)) = [])) ->
          m_lastHash (mon s') = m_lastHash (mon s)
          /\ writes (trace s') = writes (trace s))).
Proof.
  intros Hw s' fs. split.
  - intros Hm. unfold s'. simpl. unfold checkClipboard.
    destruct Q_WS_X11 eqn:HX.
    + destruct Hm as [Hm | Hm]; [|discriminate].
      destruct mode; simpl in *; rewrite ?Hw, ?Hm; reflexivity.
    + destruct mode; simpl in *; rewrite ?Hw; reflexivity.
  - intros Hquiet.
    assert (Hs' : s' = checkClipboard (fun s0 => s0) mode s).
    { unfold s'. destruct Hquiet as [-> | ->]; [|reflexivity].
      simpl. apply checkClipboard_clipboard. }
    rewrite Hs'. clear Hs' s' Hquiet pending.
    split; [|split].
    + destruct (checkClipboard_notifications mode s) as [Hn | (Hw' & _)];
        [exact Hn | congruence].
    + intros d HX Hm Hfree Hguard Hd Hnew Hacc.
      destruct (checkClipboard_evaluates mode s HX) as (s1 & -> & Ht & Hh & x & Hx);
        try assumption.
      { rewrite Hm. apply orb_true_r. }
      assert (Hf : m_formats (mon s1) = fs)
        by (rewrite Hx; unfold fs; destruct (mon s); reflexivity).
      assert (Hl : m_lastHash (mon s1) = m_lastHash (mon s))
        by (rewrite Hx; destruct (mon s); reflexivity).
      destruct (evaluate_accepted mode d s1) as (Hmon & Htr & _).
      { rewrite (clipboardData_host mode s1 s Hh). exact Hd. }
      { rewrite Hl, Hf. exact Hnew. }
      { rewrite Hf. exact Hacc. }
      rewrite Hf in Hmon, Htr. split; [rewrite Hmon; reflexivity|].
      rewrite Htr, !writes_app, Ht.
      replace (watch_flag mode (mon s1)) with false
        by (rewrite Hx, watch_flag_set_x11; symmetry; exact Hw).
      replace (mirror_flag mode (mon s1)) with true
        by (rewrite Hx; destruct mode; simpl in *; symmetry; exact Hm).
      rewrite HX. reflexivity.
    + intros Hno.
      destruct (checkClipboard_cases mode s) as [(Ht & _ & x & Hx) | Hev].
      { rewrite Ht, Hx. destruct (mon s); split; reflexivity. }
      destruct Hev as (s1 & Hc & Ht & Hh & (x & Hx) & _).
      assert (Hf : m_formats (mon s1) = fs)
        by (rewrite Hx; unfold fs; destruct (mon s); reflexivity).
      assert (Hl : m_lastHash (mon s1) = m_lastHash (mon s))
        by (rewrite Hx; destruct (mon s); reflexivity).
      destruct Hno as [Hown | [(-> & Hwait) | [Hd | (d & Hd & Hwhy)]]].
      * rewrite (checkClipboard_owned _ mode s Hown). split; reflexivity.
      * clear Hc. unfold checkClipboard, updateSelection_with.
        pose proof (waitForKeyRelease_frame s) as (Ht' & _ & x' & Hx').
        destruct Q_WS_X11; [|split; reflexivity].
        destruct (_ || ownsSelection s); [split; reflexivity|].
        destruct (waitForKeyRelease s) as [waiting s2]. simpl in *. subst waiting.
        simpl. rewrite Ht', Hx'. destruct (mon s); split; reflexivity.
      * rewrite Hc. destruct (evaluate_rejected mode s1) as (Hm' & _ & _ & Hwr).
        { left. rewrite (clipboardData_host mode s1 s Hh). exact Hd. }
        rewrite Hm', Hwr, Hl, Ht. split; reflexivity.
      * rewrite <- (clipboardData_host mode s1 s Hh) in Hd.
        rewrite Hc. destruct Hwhy as [Hsame | Hempty].
        -- rewrite (evaluate_same_hash mode d s1 Hd), Hl, Ht; [split; reflexivity|].
           rewrite Hf, Hl. exact Hsame.
        -- destruct (evaluate_rejected mode s1) as (Hm' & _ & _ & Hwr).
           { right. exists d. rewrite Hf. auto. }
           rewrite Hm', Hwr, Hl, Ht. split; reflexivity.
Qed.
End Unwatched.

(** C3, witness: the clipboard of the X11 build is mirrored and not
    watched, and another application stores a text in it. *)
Lemma external_change_unwatched_witness :
  let H := Model.deps true in
  let s := run [SocketReadyRead [Complete (Model.settings "fcM")] [];
                HostChange (copied Clipboard Model.text_a)] (init Model.quiet) in
  let s' := dispatch (ClipboardChanged Clipboard []) s in
  watch_flag Clipboard (mon s) = false
  /\ notifications (trace s') = notifications (trace s)
  /\ m_lastHash (mon s') = hash Model.text_a ["text/plain"]
  /\ writes (trace s') = [(Model.text_a, Selection)].
Proof.
  intros H s s'.
  pose proof (@external_change_unwatched H Clipboard [] s eq_refl)
    as (_ & W).
  destruct (W (or_introl eq_refl)) as (Wn & Wa & _).
  assert (Hnew : m_lastHash (mon s) <> hash Model.text_a (m_formats (mon s)))
    by (vm_compute; discriminate).
  assert (Hacc : formats (cloneData Model.text_a (Some (m_formats (mon s)))) <> [])
    by (vm_compute; discriminate).
  destruct (Wa Model.text_a eq_refl eq_refl eq_refl
               ltac:(discriminate) eq_refl Hnew Hacc) as (Wl & Ww).
  split; [reflexivity|]. split; [exact Wn|]. split; [exact Wl | exact Ww].
Defined.

(** ** Settings messages *)

Section SettingsMessages.
Context `{ClientServer}.

Lemma kept_of_config (absent : string -> Prop) (s s' : Sys) :
  config s' = config s -> absent_keys_kept absent s s'.
Proof.
  unfold config. intros Hc. injection Hc as H1 H2 H3 H4 H5.
  repeat split; intros _; assumption.
Qed.

Lemma kept_trans (absent : string -> Prop) (s1 s2 s3 : Sys) :
  absent_keys_kept absent s1 s2 -> absent_keys_kept absent s2 s3 ->
  absent_keys_kept absent s1 s3.
Proof.
  intros (A1 & A2 & A3 & A4 & A5) (B1 & B2 & B3 & B4 & B5).
  repeat split; intros Hk;
    [rewrite (B1 Hk)|rewrite (B2 Hk)|rewrite (B3 Hk)|rewrite (B4 Hk)|rewrite (B5 Hk)];
    auto.
Qed.

Lemma kept_weaken (P Q : string -> Prop) (s s' : Sys) :
  (forall k, Q k -> P k) -> absent_keys_kept P s s' -> absent_keys_kept Q s s'.
Proof.
  intros HQP (A1 & A2 & A3 & A4 & A5). repeat split; intros Hk; auto.
Qed.

(** What [applySettings] leaves has kept the fields of the absent
    keys. *)
Lemma kept_applySettings (st : gmap string QVariant) (s s' : Sys) :
  config s' = config (applySettings st s) ->
  absent_keys_kept (fun k => st !! k = None) s s'.
Proof.
  rewrite applySettings_config. unfold config.
  intros Hc. injection Hc as H1 H2 H3 H4 H5.
  repeat split; intros Hk; rewrite Hk in *; assumption.
Qed.

(** One settings message, handled while the signals of the socket are
    blocked, as they are inside [readyRead]. *)
Lemma handleItem_settings (item : QMimeData) (pending : list Event) (s : Sys) :
  data item settings_format <> "" ->
  signalsBlocked (m_socket (mon s)) = true ->
  let st := decodeSettings (data item settings_format) in
  let s' := handleItem (run pending) item s in
  config s' = config (applySettings st s)
  /\ signalsBlocked (m_socket (mon s')) = true.
Proof.
  intros Hpay Hb st. unfold handleItem, settings_format in *.
  destruct (data item "application/x-copyq-settings") as [|c payload] eqn:Hd;
    [congruence|]. simpl. fold st.
  set (s1 := applySettings st s).
  assert (Hb1 : signalsBlocked (m_socket (mon s1)) = true).
  { unfold s1. destruct (applySettings_frame st s) as (_ & _ & _ & _ & _ & ->).
    exact Hb. }
  assert (Hcheck : forall mode a,
             signalsBlocked (m_socket (mon a)) = true ->
             config (checkClipboard (run pending) mode a) = config a
             /\ signalsBlocked (m_socket (mon (checkClipboard (run pending) mode a)))
                = true).
  { intros mode a. apply (run_blocked_config [ClipboardChanged mode pending] a). }
  destruct Q_WS_X11.
  - destruct (Hcheck Selection s1 Hb1) as (Hc2 & Hb2).
    destruct (Hcheck Clipboard _ Hb2) as (Hc3 & Hb3).
    split; [congruence | exact Hb3].
  - destruct (Hcheck Clipboard s1 Hb1) as (Hc3 & Hb3).
    split; [congruence | exact Hb3].
Qed.

(** A content message leaves the configuration and the socket. *)
Lemma handleItem_push (pe : Sys -> Sys) (item : QMimeData) (s : Sys) :
  data item settings_format = "" ->
  let s' := handleItem pe item s in
  config s' = config s /\ m_socket (mon s') = m_socket (mon s).
Proof.
  intros Hpay. unfold handleItem, settings_format in *. rewrite Hpay. simpl.
  unfold updateClipboard, config. branch; simpl; split; reflexivity.
Qed.

(** The frames of a drain, read while the signals are blocked. *)
Lemma readyRead_loop_kept (pending : list Event) (buffered : list Frame) (s : Sys) :
  signalsBlocked (m_socket (mon s)) = true ->
  absent_keys_kept (fun k => ~ mentions k buffered) s
                   (fst (readyRead_loop (run pending) buffered s)).
Proof.
  revert s. induction buffered as [|[item|] rest IH]; intros s Hb; simpl.
  - apply kept_of_config. reflexivity.
  - assert (Hrest : forall k, ~ mentions k (Complete item :: rest) ->
                              ~ mentions k rest).
    { intros k Hno (i & Hin & Hi). apply Hno. exists i. split; [|exact Hi].
      apply elem_of_cons. right. exact Hin. }
    destruct (decide (data item settings_format = "")) as [Hpay | Hpay].
    + destruct (handleItem_push (run pending) item s Hpay) as (Hc & Hsock).
      eapply kept_trans; [apply kept_of_config, Hc|].
      eapply kept_weaken; [exact Hrest|]. apply IH. rewrite Hsock. exact Hb.
    + destruct (handleItem_settings item pending s Hpay Hb) as (Hc & Hb').
      eapply kept_trans.
      * eapply kept_weaken; [|apply (kept_applySettings _ s _ Hc)].
        intros k Hno. simpl.
        destruct (decodeSettings (data item settings_format) !! k) eqn:Hk;
          [|reflexivity].
        exfalso. apply Hno. exists item. split; [apply list_elem_of_here|].
        split; [exact Hpay|]. rewrite Hk. discriminate.
      * eapply kept_weaken; [exact Hrest|]. apply IH. exact Hb'.
  - apply kept_of_config. reflexivity.
Qed.

(** C7.  A settings message handled by [readyRead] (the signals of the
    socket are blocked while it is), with whatever events pending, leaves
    every configuration field whose key is absent from its map as it
    was: the accepted formats, the two watch flags and the two mirror
    flags.  And over a whole drain during which no other frame arrives,
    whatever frames it reads: a field is left as it was unless the map of
    one of the settings messages read has its key. *)
Theorem settings_partial_update (item : QMimeData) (pending : list Event) (s : Sys) :
  data item settings_format <> "" ->
  let st := decodeSettings (data item settings_format) in
  (signalsBlocked (m_socket (mon s)) = true ->
   absent_keys_kept (fun k => st !! k = None) s (handleItem (run pending) item s))
  /\ (forallb no_frames pending = true ->
      forall buffered,
        absent_keys_kept (fun k => ~ mentions k buffered) s
                         (dispatch (SocketReadyRead buffered pending) s)).
Proof.
  intros Hpay st. split.
  - intros Hb. apply kept_applySettings.
    apply (handleItem_settings item pending s Hpay Hb).
  - intros _ buffered. simpl.
    destruct (signalsBlocked (m_socket (mon s))) eqn:Hb;
      [apply kept_of_config; reflexivity|].
    unfold readyRead.
    eapply kept_trans; [apply (kept_of_config _ s (blockSignals true s)); reflexivity|].
    apply (readyRead_loop_kept pending buffered (blockSignals true s)). reflexivity.
Qed.

(** Applying a map is applying the map without [_last_hash], after the
    fingerprint was taken from that key when it is there and the
    fingerprint is 0. *)
Lemma applySettings_without_last_hash (st : gmap string QVariant) (s : Sys) :
  applySettings st s
  = applySettings (delete "_last_hash" st)
                  (match st !! "_last_hash" with
                   | Some v => if m_lastHash (mon s) =? 0
                               then upd (set_lastHash (toUInt v)) s else s
                   | None => s
                   end).
Proof.
  unfold applySettings.
  rewrite lookup_delete_eq.
  rewrite !lookup_delete_ne by discriminate.
  reflexivity.
Qed.

(** A drain of one settings message, unfolded. *)
Lemma dispatch_settings_unfold (item : QMimeData) (pending : list Event) (s : Sys) :
  signalsBlocked (m_socket (mon s)) = false ->
  data item settings_format <> "" ->
  dispatch (SocketReadyRead [Complete item] pending) s
  = blockSignals false
      (checkClipboard (run pending) Clipboard
         (let s1 := applySettings (decodeSettings (data item settings_format))
                                  (blockSignals true s) in
          if Q_WS_X11 then checkClipboard (run pending) Selection s1 else s1)).
Proof.
  intros Hopen Hpay. simpl. rewrite Hopen. unfold readyRead. simpl.
  unfold handleItem, settings_format in *.
  destruct (data item "application/x-copyq-settings"); [congruence|].
  reflexivity.
Qed.

(** C8, as amended.  A settings message that [readyRead] handles, next
    to the same message without [_last_hash].  When the key is there and
    the last-seen fingerprint is 0, the message is handled as the message
    without the key would be from the state whose fingerprint is the value
    of the key; when the key is not there, or the fingerprint is not 0,
    it is handled as the message without the key from the same state: the
    key has no effect.  A fingerprint of 0 does not tell that nothing was
    seen yet: applying a push whose data hash to 0 leaves it 0. *)
Theorem last_hash_bootstrap
        (item item' : QMimeData) (pending : list Event) (s : Sys) :
  signalsBlocked (m_socket (mon s)) = false ->
  data item settings_format <> "" ->
  data item' settings_format <> "" ->
  let st := decodeSettings (data item settings_format) in
  decodeSettings (data item' settings_format) = delete "_last_hash" st ->
  (forall v, st !! "_last_hash" = Some v -> m_lastHash (mon s) = 0 ->
             dispatch (SocketReadyRead [Complete item] pending) s
             = dispatch (SocketReadyRead [Complete item'] pending)
                        (upd (set_lastHash (toUInt v)) s))
  /\ (st !! "_last_hash" = None \/ m_lastHash (mon s) <> 0 ->
      dispatch (SocketReadyRead [Complete item] pending) s
      = dispatch (SocketReadyRead [Complete item'] pending) s)
  /\ (forall d force a,
         negb force && isActive (m_updateTimer (mon a)) = false ->
         hash d (formats d) = 0 ->
         m_lastHash (mon (updateClipboard d force a)) = 0).
Proof.
  intros Hopen Hpay Hpay' st Hst'. split; [|split].
  - intros v Hkey Hzero.
    rewrite (dispatch_settings_unfold item pending s Hopen Hpay).
    rewrite (dispatch_settings_unfold item' pending
               (upd (set_lastHash (toUInt v)) s) Hopen Hpay').
    rewrite Hst'. fold st.
    rewrite (applySettings_without_last_hash st (blockSignals true s)), Hkey.
    simpl m_lastHash. rewrite Hzero. reflexivity.
  - intros Hno.
    rewrite (dispatch_settings_unfold item pending s Hopen Hpay).
    rewrite (dispatch_settings_unfold item' pending s Hopen Hpay').
    rewrite Hst'. fold st.
    rewrite (applySettings_without_last_hash st (blockSignals true s)).
    destruct (st !! "_last_hash") as [v|]; [|reflexivity].
    destruct Hno as [Hno | Hno]; [discriminate|].
    simpl m_lastHash. apply N.eqb_neq in Hno. rewrite Hno. reflexivity.
  - intros d force a Hgate Hzero.
    destruct (updateClipboard_applied d force a Hgate) as (_ & Hl & _).
    rewrite Hl. exact Hzero.
Qed.
End SettingsMessages.

(** C7, witness: every flag is on, then a drain that reads the formats
    only. *)
Lemma settings_partial_update_witness :
  let H := Model.deps true in
  let s := run [SocketReadyRead [Complete (Model.settings "CMSN")] []]
               (init Model.quiet) in
  let s' := dispatch (SocketReadyRead [Complete (Model.settings "f")] []) s in
  m_formats (mon s') = ["text/plain"]
  /\ m_checkclip (mon s') = true /\ m_copyclip (mon s') = true
  /\ m_checksel (mon s') = true /\ m_copysel (mon s') = true.
Proof.
  intros H s s'.
  assert (Hpay : data (Model.settings "f") settings_format <> "")
    by (vm_compute; discriminate).
  pose proof (@settings_partial_update H (Model.settings "f") [] s Hpay)
    as (_ & W).
  destruct (W eq_refl [Complete (Model.settings "f")]) as (_ & W1 & W2 & W3 & W4).
  assert (Hno : forall k, k <> "formats" ->
                          ~ mentions k [Complete (Model.settings "f")]).
  { intros k Hk (item & Hin & _ & Hhas).
    apply list_elem_of_singleton in Hin. injection Hin as ->.
    apply Hhas.
    change (decodeSettings (data (Model.settings "f") settings_format))
      with (<["formats" := Model.VString "text/plain"]>
              (∅ : gmap string Model.Variant)).
    rewrite lookup_insert_ne by (intros Heq; apply Hk; symmetry; exact Heq).
    apply lookup_empty. }
  assert (E1 : m_checkclip (mon s) = true) by (vm_compute; reflexivity).
  assert (E2 : m_copyclip (mon s) = true) by (vm_compute; reflexivity).
  assert (E3 : m_checksel (mon s) = true) by (vm_compute; reflexivity).
  assert (E4 : m_copysel (mon s) = true) by (vm_compute; reflexivity).
  split; [vm_compute; reflexivity|].
  split; [exact (eq_trans (W1 (Hno "check_clipboard" ltac:(discriminate))) E1)|].
  split; [exact (eq_trans (W2 (Hno "copy_clipboard" ltac:(discriminate))) E2)|].
  split; [exact (eq_trans (W3 (Hno "check_selection" ltac:(discriminate))) E3)
         |exact (eq_trans (W4 (Hno "copy_selection" ltac:(discriminate))) E4)].
Defined.

(** C8, witness: the first settings of a run carry a last hash. *)
Lemma last_hash_bootstrap_witness :
  let H := Model.deps true in
  let s := init Model.quiet in
  m_lastHash (mon s) = 0
  /\ m_lastHash (mon (dispatch (SocketReadyRead [Complete (Model.settings "hf")] []) s))
     = 7.
Proof.
  intros H s.
  assert (Hpay : data (Model.settings "hf") settings_format <> "")
    by (vm_compute; discriminate).
  assert (Hpay' : data (Model.settings "f") settings_format <> "")
    by (vm_compute; discriminate).
  assert (Hdel : decodeSettings (data (Model.settings "f") settings_format)
                 = delete "_last_hash"
                          (decodeSettings (data (Model.settings "hf") settings_format)))
    by (vm_compute; reflexivity).
  pose proof (@last_hash_bootstrap H (Model.settings "hf") (Model.settings "f")
                [] s eq_refl Hpay Hpay' Hdel) as (W & _).
  split; [reflexivity|].
  rewrite (W (Model.VUInt 7) eq_refl eq_refl). reflexivity.
Defined.

(** C8, counterexample: a text is seen and reported, so a fingerprint
    other than 0 is recorded; the server pushes an item without data,
    whose hash is 0; the settings that follow have their last hash
    taken. *)
Lemma last_hash_taken_after_observation :
  let H := Model.deps false in
  let s := run [SocketReadyRead [Complete (Model.settings "fC")] [];
                HostChange (copied Clipboard Model.text_a);
                ClipboardChanged Clipboard []] (init Model.quiet) in
  let s' := run [SocketReadyRead [Complete []] [];
                 SocketReadyRead [Complete (Model.settings "h")] []] s in
  notifications (trace s) = [Model.text_a]
  /\ m_lastHash (mon s) <> 0
  /\ m_lastHash (mon s') = 7.
Proof. vm_compute. repeat split; try reflexivity. discriminate. Qed.
